(** * Interpreter probing in the superclaude-enterprise diagnostic scripts

    A shallow embedding of the three scripts that look for a Python
    interpreter able to import SuperClaude:

    - [verify-superclaude.py]: [check_superclaude] and the loop over
      [environments];
    - [test-simple-fix.py]: the loop over [python_paths] that sets
      [working_python];
    - [test-bridge-functionality.py]: the loop that sets [python_cmd], and
      the loop over [test_commands].

    Python text is a list of code points.  The operating system is an
    interface ([OS]): a world and what [subprocess.run] does in it.  A script
    is a computation in a state-and-exception monad whose state holds the
    world, what has been printed, and the log of [subprocess.run] calls.

    In that first model a [print] succeeds and [subprocess.run] comes back.
    What depends on these two is stated on a [Host], where a write to the
    console can raise and a child need not finish; there the scripts are
    modelled a second time, with the same structure. *)

From Stdlib Require Import String Ascii DecimalString List ZArith NArith Bool Lia.
Import ListNotations.

Set Implicit Arguments.

(** ** Python text *)

(** A [str] is its sequence of Unicode code points. *)
Definition str := list N.

(** An ASCII literal of the source. *)
Definition lit (s : string) : str :=
  map N_of_ascii (list_ascii_of_string s).

(** The double quote character, spelled by its code point. *)
Definition dq : str := [34%N].

Fixpoint str_eqb (a b : str) : bool :=
  match a, b with
  | [], [] => true
  | x :: a', y :: b' => (x =? y)%N && str_eqb a' b'
  | _, _ => false
  end.

(** [s.startswith(prefix)] *)
Fixpoint startswith (prefix s : str) : bool :=
  match prefix, s with
  | [], _ => true
  | p :: prefix', c :: s' => (p =? c)%N && startswith prefix' s'
  | _ :: _, [] => false
  end.

(** [needle in hay] *)
Fixpoint contains (needle hay : str) : bool :=
  startswith needle hay ||
  match hay with
  | [] => false
  | _ :: hay' => contains needle hay'
  end.

(** [c.isspace()], the code points CPython treats as whitespace. *)
Definition isspace (c : N) : bool :=
  ((9 <=? c) && (c <=? 13) || (28 <=? c) && (c <=? 32)
   || (c =? 133) || (c =? 160) || (c =? 5760)
   || (8192 <=? c) && (c <=? 8202)
   || (c =? 8232) || (c =? 8233) || (c =? 8239) || (c =? 8287)
   || (c =? 12288))%N.

Fixpoint dropwhile {A} (p : A -> bool) (l : list A) : list A :=
  match l with
  | [] => []
  | x :: l' => if p x then dropwhile p l' else l
  end.

Definition lstrip (s : str) : str := dropwhile isspace s.
Definition rstrip (s : str) : str := rev (dropwhile isspace (rev s)).

(** [s.strip()] *)
Definition strip (s : str) : str := rstrip (lstrip s).

(** Truth value of a [str], and of a value that is a [str] or [None]. *)
Definition nonempty (s : str) : bool :=
  match s with [] => false | _ :: _ => true end.

Definition truthy (o : option str) : bool :=
  match o with
  | Some s => nonempty s
  | None => false
  end.

(** ** POSIX paths *)

Definition sep : N := 47%N.

Definition endswith_sep (s : str) : bool :=
  match rev s with
  | c :: _ => (c =? sep)%N
  | [] => false
  end.

(** [os.path.join(a, b)] *)
Definition path_join (a b : str) : str :=
  if startswith [sep] b then b
  else if negb (nonempty a) || endswith_sep a then a ++ b
  else a ++ [sep] ++ b.

(** [os.path.dirname(p)]: everything up to the last separator; trailing
    separators are removed from it unless it consists of separators only. *)
Definition dirname (p : str) : str :=
  let head_rev := dropwhile (fun c => negb (c =? sep)%N) (rev p) in
  let stripped := dropwhile (fun c => (c =? sep)%N) head_rev in
  if nonempty stripped then rev stripped else rev head_rev.

(** ** Child processes *)

(** The arguments of one [subprocess.run] call. *)
Record Call := mkCall {
  argv : list str;
  capture_output : bool;
  text : bool;
  timeout : option N
}.

(** What a finished child left behind ([subprocess.CompletedProcess]). *)
Record CompletedProcess := mkCompleted {
  returncode : Z;
  stdout : str;
  stderr : str
}.

(** The exceptions [subprocess.run] raises, each with its message:
    [FileNotFoundError] when the program cannot be found, so that no child
    ever runs; [TimeoutExpired] when a [timeout] was given and the child,
    which [subprocess.run] then kills, did not finish in time; any other
    [Exception]. *)
Inductive Exception :=
| FileNotFoundError (msg : str)
| TimeoutExpired (msg : str)
| OtherException (msg : str).

(** [str(e)] *)
Definition exn_str (e : Exception) : str :=
  match e with
  | FileNotFoundError msg | TimeoutExpired msg | OtherException msg => msg
  end.

(** [SystemExit] is a [BaseException] that [except Exception] lets through. *)
Inductive BaseException :=
| Exc (e : Exception)
| SystemExit (code : Z).

Inductive RunOutcome :=
| Completes (p : CompletedProcess)
| Raises (e : Exception).

(** The child ran to its end and left the exit status zero. *)
Definition exit_zero (o : RunOutcome) : bool :=
  match o with
  | Completes p => (returncode p =? 0)%Z
  | Raises _ => false
  end.

(** The operating system the scripts run on. *)
Class OS := {
  World : Type;
  subprocess_run : World -> Call -> RunOutcome * World
}.

(** ** The monad of a script *)

(** A computation returns a value or raises. *)
Inductive Result (A : Type) :=
| Returned (a : A)
| Raised (e : BaseException).

Arguments Returned {A} a.
Arguments Raised {A} e.

Section Script.
Context {os : OS}.
(** [L] is the type of the lines the script prints. *)
Variable L : Type.

Record State := mkState {
  world : World;
  console : list L;
  calls : list (Call * RunOutcome)
}.

Definition M (A : Type) := State -> Result A * State.

Definition ret {A} (a : A) : M A := fun s => (Returned a, s).

Definition bind {A B} (c : M A) (k : A -> M B) : M B :=
  fun s =>
    match c s with
    | (Returned a, s') => k a s'
    | (Raised e, s') => (Raised e, s')
    end.

Definition raise {A} (e : BaseException) : M A := fun s => (Raised e, s).

(** [try: body / except: handler]; a handler re-raises what its [except]
    clauses do not name. *)
Definition try_except {A} (body : M A) (handler : BaseException -> M A)
  : M A :=
  fun s =>
    match body s with
    | (Returned a, s') => (Returned a, s')
    | (Raised e, s') => handler e s'
    end.

(** [print(line)]; writing to the console does not fail. *)
Definition print (line : L) : M unit :=
  fun s => (Returned tt, mkState (world s) (console s ++ [line]) (calls s)).

(** [subprocess.run(...)]: the call and its outcome are logged. *)
Definition run (c : Call) : M CompletedProcess :=
  fun s =>
    let (o, w') := subprocess_run (world s) c in
    let s' := mkState w' (console s) (calls s ++ [(c, o)]) in
    match o with
    | Completes p => (Returned p, s')
    | Raises e => (Raised (Exc e), s')
    end.

(** A script starts with nothing printed and no call made. *)
Definition start (w : World) : State := mkState w [] [].

(** What was printed, and which calls were made, between two states. *)
Definition printed_since (s s' : State) : list L :=
  skipn (length (console s)) (console s').

Definition calls_since (s s' : State) : list (Call * RunOutcome) :=
  skipn (length (calls s)) (calls s').
End Script.

Arguments ret {os L A} a.
Arguments raise {os L A} e.
Arguments print {os L} line.
Arguments run {os L} c.
Arguments start {os L} w.

Declare Scope script_scope.
Delimit Scope script_scope with script.
Notation "x <- c1 ;; c2" := (bind c1 (fun x => c2))
  (at level 61, c1 at next level, right associativity) : script_scope.
Notation "c1 ;; c2" := (bind c1 (fun _ => c2))
  (at level 61, right associativity) : script_scope.
Open Scope script_scope.

(** ** verify-superclaude.py *)

Module VerifySuperclaude.

(** One constructor per [print] of the script, with the values it
    interpolates. *)
Inductive Line :=
| found (env_name : str)
| details_out (text : str)
| not_found (env_name : str)
| error_text (text : str)
| python_not_found (env_name python_path : str)
| error_exc (env_name msg : str)
| blank
| summary (found_count : nat).

Definition decimal (n : nat) : str :=
  lit (DecimalString.NilEmpty.string_of_uint (Nat.to_uint n)).

(** The text each [print] writes, without the newline that ends it.
    9989 is the check mark and 10060 the cross mark. *)
Definition render (l : Line) : str :=
  match l with
  | found env_name =>
      [9989%N] ++ lit " " ++ env_name ++ lit ": SuperClaude found"
  | details_out text => text
  | not_found env_name =>
      [10060%N] ++ lit " " ++ env_name ++ lit ": SuperClaude NOT found"
  | error_text text => lit "   Error: " ++ text
  | python_not_found env_name python_path =>
      [10060%N] ++ lit " " ++ env_name ++ lit ": Python not found at "
      ++ python_path
  | error_exc env_name msg =>
      [10060%N] ++ lit " " ++ env_name ++ lit ": Error - " ++ msg
  | blank => []
  | summary found_count =>
      [10%N] ++ lit "Summary: SuperClaude found in " ++ decimal found_count
      ++ lit " environment(s)"
  end.

(** The lines that carry error text, and the ones that carry the resolved
    interpreter and module location. *)
Definition is_diagnostic (l : Line) : bool :=
  match l with
  | error_text _ | python_not_found _ _ | error_exc _ _ => true
  | _ => false
  end.

Definition is_metadata (l : Line) : bool :=
  match l with
  | details_out _ => true
  | _ => false
  end.

(** [[python_path, '-c', 'import SuperClaude; print("OK")']], run with
    [capture_output=True, text=True] and no [timeout]. *)
Definition import_check (python_path : str) : Call :=
  mkCall [python_path; lit "-c";
          lit "import SuperClaude; print(" ++ dq ++ lit "OK" ++ dq
          ++ lit ")"]
         true true None.

(** The second invocation, which prints [sys.executable] and
    [SuperClaude.__file__]. *)
Definition details_call (python_path : str) : Call :=
  mkCall [python_path; lit "-c";
          lit "import SuperClaude; import sys; "
          ++ lit "print(f" ++ dq ++ lit "  Python: {sys.executable}" ++ dq
          ++ lit "); "
          ++ lit "print(f" ++ dq ++ lit "  Module: {SuperClaude.__file__}"
          ++ dq ++ lit ")"]
         true true None.

Section Program.
Context {os : OS}.

Definition check_superclaude (python_path env_name : str) : M Line bool :=
  try_except
    (result <- run (import_check python_path) ;;
     if (returncode result =? 0)%Z
        && contains (lit "OK") (stdout result)
     then
       print (found env_name) ;;
       details <- run (details_call python_path) ;;
       (if (returncode details =? 0)%Z
        then print (details_out (strip (stdout details)))
        else ret tt) ;;
       ret true
     else
       print (not_found env_name) ;;
       (if nonempty (stderr result)
        then print (error_text (strip (stderr result)))
        else ret tt) ;;
       ret false)
    (fun e =>
       match e with
       | Exc (FileNotFoundError _) =>
           print (python_not_found env_name python_path) ;;
           ret false
       | Exc e' =>
           print (error_exc env_name (exn_str e')) ;;
           ret false
       | SystemExit _ => raise e
       end).

(** The four environments, for the working directory [cwd]. *)
Definition environments (cwd : str) : list (str * str) :=
  [ (lit "System Python", lit "python3");
    (lit "Project venv", path_join cwd (lit "venv/bin/python"));
    (lit "Project .venv", path_join cwd (lit ".venv/bin/python"));
    (lit "Parent venv", path_join (dirname cwd) (lit "venv/bin/python")) ].

(** [for env_name, python_path in environments: ...], from a given
    [found_count]. *)
Fixpoint probe_loop (envs : list (str * str)) (found_count : nat)
  : M Line nat :=
  match envs with
  | [] => ret found_count
  | (env_name, python_path) :: rest =>
      ok <- check_superclaude python_path env_name ;;
      let found_count := if ok then S found_count else found_count in
      print blank ;;
      probe_loop rest found_count
  end.

(** What [check_superclaude] makes of [python_path] in world [w]: the
    import check returns and passes, and the call for the details
    returns. *)
Definition verdict (python_path : str) (w : World) : bool :=
  match subprocess_run w (import_check python_path) with
  | (Completes p, w1) =>
      (returncode p =? 0)%Z && contains (lit "OK") (stdout p)
      && match fst (subprocess_run w1 (details_call python_path)) with
         | Completes _ => true
         | Raises _ => false
         end
  | (Raises _, _) => false
  end.

(** The loop and the summary line that follows it. *)
Definition verify (envs : list (str * str)) : M Line nat :=
  found_count <- probe_loop envs 0 ;;
  print (summary found_count) ;;
  ret found_count.
End Program.

(** The output of the loop, cut at the blank line that ends the turn of
    each environment. *)
Fixpoint blocks_from (cur : list Line) (out : list Line)
  : list (list Line) :=
  match out with
  | [] => []
  | blank :: rest => rev cur :: blocks_from [] rest
  | l :: rest => blocks_from (l :: cur) rest
  end.

Definition blocks (out : list Line) : list (list Line) :=
  blocks_from [] out.

(** The environment a line names. *)
Definition line_env (l : Line) : option str :=
  match l with
  | found n | not_found n | python_not_found n _ | error_exc n _ => Some n
  | _ => None
  end.

(** The environment a block reports on: the one its first line names. *)
Definition block_env (b : list Line) : option str :=
  match b with
  | l :: _ => line_env l
  | [] => None
  end.

(** The verdict of a block: found, unless a later line takes it back. *)
Definition block_found (b : list Line) : bool :=
  match b with
  | found _ :: rest => negb (existsb is_diagnostic rest)
  | _ => false
  end.

(** The import check passed: exit status zero and the marker printed. *)
Definition import_ok (p : CompletedProcess) : bool :=
  (returncode p =? 0)%Z && contains (lit "OK") (stdout p).

(** What is printed after [not_found] when the import check did not pass. *)
Definition failure_lines (env_name : str) (p : CompletedProcess)
  : list Line :=
  not_found env_name ::
  (if nonempty (stderr p) then [error_text (strip (stderr p))] else []).

(** What is printed from [found] on when the second call returns. *)
Definition success_lines (env_name : str) (d : CompletedProcess)
  : list Line :=
  found env_name ::
  (if (returncode d =? 0)%Z then [details_out (strip (stdout d))] else []).

(** The line of an [except] clause. *)
Definition except_line (env_name python_path : str) (e : Exception) : Line :=
  match e with
  | FileNotFoundError _ => python_not_found env_name python_path
  | _ => error_exc env_name (exn_str e)
  end.

(** The number of blocks that say found. *)
Definition count_found (bs : list (list Line)) : nat :=
  length (filter block_found bs).

Definition is_blank (l : Line) : bool :=
  match l with
  | blank => true
  | _ => false
  end.

(** What [check_superclaude] prints for [env_name] when it returns [ok]:
    at least one line, the first one naming the environment, no blank
    line, the verdict readable from the lines, and no error text with
    [True] nor location with [False]. *)
Definition block_of (env_name : str) (ok : bool) (lines : list Line)
  : Prop :=
  block_env lines = Some env_name
  /\ existsb is_blank lines = false
  /\ block_found lines = ok
  /\ (if ok then existsb is_diagnostic lines
      else existsb is_metadata lines) = false.

End VerifySuperclaude.

(** ** test-simple-fix.py *)

Module TestSimpleFix.

Inductive Line :=
| not_set (name : str)
| found (name python_path : str)
| not_found (name python_path : str)
| not_accessible (name python_path : str)
| selected (working_python : option str).

(** 10003 is the check mark and 10007 the ballot cross. *)
Definition render (l : Line) : str :=
  match l with
  | not_set name => lit "   " ++ name ++ lit ": Not set"
  | found name python_path =>
      lit "   " ++ [10003%N] ++ lit " " ++ name ++ lit ": " ++ python_path
      ++ lit " - SuperClaude found"
  | not_found name python_path =>
      lit "   " ++ [10007%N] ++ lit " " ++ name ++ lit ": " ++ python_path
      ++ lit " - SuperClaude not found"
  | not_accessible name python_path =>
      lit "   " ++ [10007%N] ++ lit " " ++ name ++ lit ": " ++ python_path
      ++ lit " - Not accessible"
  | selected working_python =>
      [10%N] ++ lit "2. Selected Python: "
      ++ match working_python with
         | Some p => p
         | None => lit "None"
         end
  end.

Definition import_check (python_path : str) : Call :=
  mkCall [python_path; lit "-c";
          lit "import SuperClaude; print(" ++ dq ++ lit "OK" ++ dq
          ++ lit ")"]
         true true None.

(** [python_paths], for the value of [SUPERCLAUDE_PYTHON] in the
    environment ([None] when it is not set) and the working directory. *)
Definition python_paths (superclaude_python : option str) (cwd : str)
  : list (str * option str) :=
  [ (lit "SUPERCLAUDE_PYTHON", superclaude_python);
    (lit "System python3", Some (lit "python3"));
    (lit "Venv python", Some (path_join cwd (lit "venv/bin/python"))) ].

Section Program.
Context {os : OS}.

(** The [try] statement of the loop body; it returns the new value of
    [working_python]. *)
Definition probe (name python_path : str) (working_python : option str)
  : M Line (option str) :=
  try_except
    (result <- run (import_check python_path) ;;
     if (returncode result =? 0)%Z then
       print (found name python_path) ;;
       if negb (truthy working_python)
       then ret (Some python_path)
       else ret working_python
     else
       print (not_found name python_path) ;;
       ret working_python)
    (fun _ =>
       print (not_accessible name python_path) ;;
       ret working_python).

(** [for name, python_path in python_paths: ...] *)
Fixpoint detect_loop (paths : list (str * option str))
         (working_python : option str) : M Line (option str) :=
  match paths with
  | [] => ret working_python
  | (name, python_path) :: rest =>
      match python_path with
      | None | Some [] =>
          print (not_set name) ;;
          detect_loop rest working_python
      | Some p =>
          working_python <- probe name p working_python ;;
          detect_loop rest working_python
      end
  end.

(** [working_python = None], the loop, and the line that shows the
    selection. *)
Definition detect (paths : list (str * option str))
  : M Line (option str) :=
  working_python <- detect_loop paths None ;;
  print (selected working_python) ;;
  ret working_python.
(** The candidate has a path and, in world [w], the import check run
    with it exits with status zero. *)
Definition succeeds (c : str * option str) (w : World) : bool :=
  match snd c with
  | Some p =>
      nonempty p && exit_zero (fst (subprocess_run w (import_check p)))
  | None => false
  end.

(** The state after the turn of one candidate. *)
Definition turn (s : State Line) (c : str * option str) : State Line :=
  snd (detect_loop [c] None s).

(** The state in which the loop, started in [s], reaches the candidate
    at index [i], and whether that candidate succeeds there. *)
Definition state_at (paths : list (str * option str)) (i : nat)
           (s : State Line) : State Line :=
  fold_left turn (firstn i paths) s.

Definition succeeds_at (paths : list (str * option str)) (i : nat)
           (s : State Line) : bool :=
  match nth_error paths i with
  | Some c => succeeds c (world (state_at paths i s))
  | None => false
  end.
End Program.

(** The lines that report the outcome of a probe. *)
Definition is_result (l : Line) : bool :=
  match l with
  | found _ _ | not_found _ _ | not_accessible _ _ => true
  | _ => false
  end.

(** The value of [working_python] after the probe of [python_path], by
    whether the child exited with status zero. *)
Definition after_probe (python_path : str) (working_python : option str)
           (ok : bool) : option str :=
  if ok then
    if negb (truthy working_python) then Some python_path
    else working_python
  else working_python.

(** Two states that differ at most in lines that report no outcome. *)
Definition same_probing {os : OS} (s s' : State Line) : Prop :=
  world s = world s'
  /\ calls s = calls s'
  /\ filter is_result (console s) = filter is_result (console s').

(** The line printed for [python_path] after the outcome [o] of its
    import check. *)
Definition outcome_line (name python_path : str) (o : RunOutcome) : Line :=
  match o with
  | Completes p =>
      if (returncode p =? 0)%Z then found name python_path
      else not_found name python_path
  | Raises _ => not_accessible name python_path
  end.

End TestSimpleFix.

(** ** test-bridge-functionality.py *)

Module TestBridgeFunctionality.

Inductive Line :=
| no_python
| using_python (python_cmd : str)
| testing (test_name : str)
| command (cmd : str)
| success
| output_preview (text : str)
| failed_with_code (returncode : Z)
| error_preview (text : str)
| timed_out
| error_exc (msg : str).

Definition decimal (z : Z) : str :=
  lit (DecimalString.NilEmpty.string_of_int (Z.to_int z)).

Definition render (l : Line) : str :=
  match l with
  | no_python =>
      lit "   " ++ [10060%N] ++ lit " No Python with SuperClaude found!"
  | using_python python_cmd => lit "   Using Python: " ++ python_cmd
  | testing test_name => [10%N] ++ lit "   Testing: " ++ test_name
  | command cmd => lit "   Command: " ++ cmd
  | success => lit "   " ++ [10003%N] ++ lit " Success"
  | output_preview text => lit "   Output preview: " ++ text ++ lit "..."
  | failed_with_code rc =>
      lit "   " ++ [10007%N] ++ lit " Failed with code " ++ decimal rc
  | error_preview text => lit "   Error: " ++ text ++ lit "..."
  | timed_out => lit "   " ++ [10007%N] ++ lit " Command timed out"
  | error_exc msg => lit "   " ++ [10007%N] ++ lit " Error: " ++ msg
  end.

(** [' '.join(cmd)] *)
Fixpoint join_space (cmd : list str) : str :=
  match cmd with
  | [] => []
  | [a] => a
  | a :: rest => a ++ lit " " ++ join_space rest
  end.

(** [["python3", "./venv/bin/python",
      os.environ.get("SUPERCLAUDE_PYTHON", "")]] *)
Definition candidates (superclaude_python : option str) : list str :=
  [ lit "python3"; lit "./venv/bin/python";
    match superclaude_python with
    | Some p => p
    | None => []
    end ].

(** [[py, "-c", "import SuperClaude"]] with [capture_output=True]. *)
Definition import_call (py : str) : Call :=
  mkCall [py; lit "-c"; lit "import SuperClaude"] true false None.

Definition test_commands (python_cmd : str) : list (str * list str) :=
  [ (lit "Version check",
     [python_cmd; lit "-m"; lit "SuperClaude"; lit "--version"]);
    (lit "Help command",
     [python_cmd; lit "-m"; lit "SuperClaude"; lit "--help"]);
    (lit "List personas",
     [python_cmd; lit "-m"; lit "SuperClaude"; lit "list-personas"]) ].

(** [subprocess.run(cmd, capture_output=True, text=True, timeout=5)] *)
Definition test_call (cmd : list str) : Call :=
  mkCall cmd true true (Some 5%N).

Section Program.
Context {os : OS}.

(** The [try] statement of the first loop: whether it reached
    [python_cmd = py; break]. *)
Definition probe (py : str) : M Line bool :=
  try_except
    (result <- run (import_call py) ;;
     if (returncode result =? 0)%Z then ret true else ret false)
    (fun _ => ret false).

(** [for py in [...]: ...], with [python_cmd = None] before it. *)
Fixpoint find_python (pys : list str) : M Line (option str) :=
  match pys with
  | [] => ret None
  | py :: rest =>
      if nonempty py && negb (str_eqb py [])
      then
        hit <- probe py ;;
        if hit then ret (Some py) else find_python rest
      else find_python rest
  end.

(** The body of the loop over [test_commands]. *)
Definition run_test (test_name : str) (cmd : list str) : M Line unit :=
  print (testing test_name) ;;
  print (command (join_space cmd)) ;;
  try_except
    (result <- run (test_call cmd) ;;
     if (returncode result =? 0)%Z then
       print success ;;
       if nonempty (stdout result)
       then print (output_preview (firstn 100 (stdout result)))
       else ret tt
     else
       print (failed_with_code (returncode result)) ;;
       if nonempty (stderr result)
       then print (error_preview (firstn 200 (stderr result)))
       else ret tt)
    (fun e =>
       match e with
       | Exc (TimeoutExpired _) => print timed_out
       | Exc e' => print (error_exc (exn_str e'))
       | SystemExit _ => raise e
       end).

Fixpoint run_tests (tests : list (str * list str)) : M Line unit :=
  match tests with
  | [] => ret tt
  | (test_name, cmd) :: rest =>
      run_test test_name cmd ;;
      run_tests rest
  end.

(** Section 1 of the script: find the interpreter, leave with
    [sys.exit(1)] when there is none, else run the test commands. *)
Definition command_execution (pys : list str) : M Line unit :=
  python_cmd <- find_python pys ;;
  match python_cmd with
  | None | Some [] => print no_python ;; raise (SystemExit 1)
  | Some py => print (using_python py) ;; run_tests (test_commands py)
  end.
(** What [run_test] prints after the two lines that announce the
    command, by the outcome of the call. *)
Definition test_lines (o : RunOutcome) : list Line :=
  match o with
  | Completes p =>
      if (returncode p =? 0)%Z then
        success ::
        (if nonempty (stdout p)
         then [output_preview (firstn 100 (stdout p))] else [])
      else
        failed_with_code (returncode p) ::
        (if nonempty (stderr p)
         then [error_preview (firstn 200 (stderr p))] else [])
  | Raises (TimeoutExpired _) => [timed_out]
  | Raises e => [error_exc (exn_str e)]
  end.

(** The candidate is not empty and, in world [w], the import run with
    it exits with status zero. *)
Definition succeeds (py : str) (w : World) : bool :=
  nonempty py && exit_zero (fst (subprocess_run w (import_call py))).

(** The state after the turn of one candidate. *)
Definition turn (s : State Line) (py : str) : State Line :=
  snd (find_python [py] s).

(** The state in which the loop, started in [s], reaches the candidate
    at index [i] when none before it made it stop, and whether that
    candidate succeeds there. *)
Definition state_at (pys : list str) (i : nat) (s : State Line)
  : State Line :=
  fold_left turn (firstn i pys) s.

Definition succeeds_at (pys : list str) (i : nat) (s : State Line)
  : bool :=
  match nth_error pys i with
  | Some py => succeeds py (world (state_at pys i s))
  | None => false
  end.
End Program.

End TestBridgeFunctionality.

(** ** Two operating systems to run the scripts on *)

(** A world that is the list of the outcomes of the calls still to come;
    when the list is used up, no program is found any more. *)
Definition scripted : OS := {|
  World := list RunOutcome;
  subprocess_run w _ :=
    match w with
    | o :: w' => (o, w')
    | [] => (Raises (FileNotFoundError []), [])
    end
|}.

(** A machine whose world counts the calls made so far.  [python3] is
    installed without SuperClaude, the interpreter of the virtual
    environment under [/srv/app] has it, and nothing else is installed. *)
Definition machine_run (n : nat) (c : Call) : RunOutcome * nat :=
  match argv c with
  | prog :: _ =>
      if str_eqb prog (lit "python3") then
        (Completes (mkCompleted 1 []
           (lit "ModuleNotFoundError: No module named 'SuperClaude'"
            ++ [10%N])), S n)
      else if str_eqb prog (lit "/srv/app/venv/bin/python") then
        (Completes (mkCompleted 0 (lit "OK" ++ [10%N]) []), S n)
      else (Raises (FileNotFoundError prog), S n)
  | [] => (Raises (OtherException (lit "list index out of range")), S n)
  end.

Definition machine : OS := {|
  World := nat;
  subprocess_run := machine_run
|}.

(** The working directory and the interpreter of the virtual environment on
    that machine. *)
Definition srv_app : str := lit "/srv/app".
Definition venv_python : str := lit "/srv/app/venv/bin/python".

(** ** test-bridge-functionality.py: the check of the MCP configuration *)

Module McpStatus.

(** What [json.load] returns: a [dict] (its items, looked up from the
    front), a [list], a [str], or a number, a boolean or [None], of which
    only the text that [str] gives is kept. *)
#[warnings="-register-all"] Inductive json :=
| JDict (items : list (str * json))
| JList (items : list json)
| JStr (s : str)
| JScalar (shown : str).

(** What the script finds at a path: no file ([os.path.exists] is false), a
    file that [open] or [json.load] fails on, or a file with its content. *)
Inductive FileState :=
| Absent
| Unreadable
| Content (config : json).

Inductive Line :=
| configured (config_path : str)
| python_path_configured (value : json)
| not_configured.

(** [TypeError] and [KeyError]; their messages are never looked at, the
    only handler being a bare [except]. *)
Definition TypeError : BaseException :=
  Exc (OtherException (lit "TypeError")).
Definition KeyError : BaseException :=
  Exc (OtherException (lit "KeyError")).

Definition lookup (key : str) (items : list (str * json)) : option json :=
  match find (fun kv => str_eqb (fst kv) key) items with
  | Some kv => Some (snd kv)
  | None => None
  end.

Definition is_str (key : str) (v : json) : bool :=
  match v with
  | JStr s => str_eqb s key
  | _ => false
  end.

(** [os.path.expanduser("~" + rest)] for a [rest] that starts with a
    separator; [home] is the home directory, [None] when it cannot be
    determined. *)
Definition expanduser (home : option str) (rest : str) : str :=
  match home with
  | Some userhome =>
      rev (dropwhile (fun c => (c =? sep)%N) (rev userhome)) ++ rest
  | None => lit "~" ++ rest
  end.

Definition mcp_config_paths (home : option str) : list str :=
  [ expanduser home (lit "/.claude.json");
    expanduser home (lit "/.config/claude/mcp.json");
    lit ".claude/settings.json" ].

Section Program.
Context {os : OS}.
Variable read_config : str -> FileState.

(** [key in x] *)
Definition py_in (key : str) (x : json) : M Line bool :=
  match x with
  | JDict items =>
      ret (match lookup key items with Some _ => true | None => false end)
  | JList items => ret (existsb (is_str key) items)
  | JStr s => ret (contains key s)
  | JScalar _ => raise TypeError
  end.

(** [x[key]] *)
Definition py_getitem (x : json) (key : str) : M Line json :=
  match x with
  | JDict items =>
      match lookup key items with
      | Some v => ret v
      | None => raise KeyError
      end
  | _ => raise TypeError
  end.

(** What the [with] block does with the loaded [config]; it returns
    whether it reached [mcp_configured = True; break]. *)
Definition inspect (config_path : str) (config : json) : M Line bool :=
  has_servers <- py_in (lit "mcpServers") config ;;
  has_server <-
    (if has_servers then
       servers <- py_getitem config (lit "mcpServers") ;;
       py_in (lit "superclaude-enterprise") servers
     else ret false) ;;
  if has_server then
    print (configured config_path) ;;
    servers <- py_getitem config (lit "mcpServers") ;;
    server_config <- py_getitem servers (lit "superclaude-enterprise") ;;
    has_env <- py_in (lit "env") server_config ;;
    has_python <-
      (if has_env then
         env <- py_getitem server_config (lit "env") ;;
         py_in (lit "SUPERCLAUDE_PYTHON") env
       else ret false) ;;
    (if has_python then
       env <- py_getitem server_config (lit "env") ;;
       value <- py_getitem env (lit "SUPERCLAUDE_PYTHON") ;;
       print (python_path_configured value)
     else ret tt) ;;
    ret true
  else ret false.

(** The body of the loop for one path. *)
Definition check_config (config_path : str) : M Line bool :=
  match read_config config_path with
  | Absent => ret false
  | Unreadable => ret false
  | Content config =>
      try_except (inspect config_path config) (fun _ => ret false)
  end.

(** [for config_path in mcp_config_paths: ...], with
    [mcp_configured = False] before it. *)
Fixpoint config_loop (paths : list str) : M Line bool :=
  match paths with
  | [] => ret false
  | config_path :: rest =>
      hit <- check_config config_path ;;
      if hit then ret true else config_loop rest
  end.

(** The loop and the warning that follows it. *)
Definition mcp_status (paths : list str) : M Line bool :=
  mcp_configured <- config_loop paths ;;
  (if negb mcp_configured then print not_configured else ret tt) ;;
  ret mcp_configured.
End Program.

(** The entry of the server in a configuration: what
    [config['mcpServers']['superclaude-enterprise']] is when [config] and
    [config['mcpServers']] are dictionaries that have these keys. *)
Definition server_entry (config : json) : option json :=
  match config with
  | JDict items =>
      match lookup (lit "mcpServers") items with
      | Some (JDict servers) => lookup (lit "superclaude-enterprise") servers
      | _ => None
      end
  | _ => None
  end.

(** The interpreter an entry configures: [entry['env']['SUPERCLAUDE_PYTHON']]
    when the entry and its [env] are dictionaries that have these keys. *)
Definition entry_python (entry : json) : option json :=
  match entry with
  | JDict items =>
      match lookup (lit "env") items with
      | Some (JDict env) => lookup (lit "SUPERCLAUDE_PYTHON") env
      | _ => None
      end
  | _ => None
  end.

(** An entry the script gets through without an exception: a dictionary
    without [env], or one whose [env] is a dictionary. *)
Definition plain_entry (entry : json) : bool :=
  match entry with
  | JDict items =>
      match lookup (lit "env") items with
      | None | Some (JDict _) => true
      | Some _ => false
      end
  | _ => false
  end.

(** The configurations for which the script prints the line that says the
    server is configured: a dictionary whose [mcpServers] has
    [superclaude-enterprise] in it, as a key of a dictionary, as an item
    of a list, or as a part of a string. *)
Definition announced (config : json) : bool :=
  match config with
  | JDict items =>
      match lookup (lit "mcpServers") items with
      | Some (JDict servers) =>
          match lookup (lit "superclaude-enterprise") servers with
          | Some _ => true
          | None => false
          end
      | Some (JList servers) =>
          existsb (is_str (lit "superclaude-enterprise")) servers
      | Some (JStr servers) => contains (lit "superclaude-enterprise") servers
      | _ => false
      end
  | _ => false
  end.

(** The entries with which the script gets to [mcp_configured = True]:
    those on which neither the tests for [env] and [SUPERCLAUDE_PYTHON] nor
    the look-ups that follow them raise. *)
Definition entry_passes (entry : json) : bool :=
  match entry with
  | JDict items =>
      match lookup (lit "env") items with
      | None => true
      | Some (JDict _) => true
      | Some (JList env) =>
          negb (existsb (is_str (lit "SUPERCLAUDE_PYTHON")) env)
      | Some (JStr env) => negb (contains (lit "SUPERCLAUDE_PYTHON") env)
      | Some (JScalar _) => false
      end
  | JList items => negb (existsb (is_str (lit "env")) items)
  | JStr s => negb (contains (lit "env") s)
  | JScalar _ => false
  end.

(** Whether the file at a path makes the script set [mcp_configured]. *)
Definition configures (f : FileState) : bool :=
  match f with
  | Content config =>
      match server_entry config with
      | Some entry => entry_passes entry
      | None => false
      end
  | _ => false
  end.

(** The lines the script prints for the file at a path. *)
Definition lines_for (config_path : str) (f : FileState) : list Line :=
  match f with
  | Content config =>
      if announced config then
        configured config_path ::
        match server_entry config with
        | Some entry =>
            match entry_python entry with
            | Some value => [python_path_configured value]
            | None => []
            end
        | None => []
        end
      else []
  | _ => []
  end.

(** The paths the loop gets to: those up to the first one whose file
    configures the server. *)
Fixpoint examined (read_config : str -> FileState) (paths : list str)
  : list str :=
  match paths with
  | [] => []
  | config_path :: rest =>
      config_path ::
      (if configures (read_config config_path) then []
       else examined read_config rest)
  end.

End McpStatus.

(** The configuration files on the machine: the one in the home
    directory configures the server and its interpreter, the second cannot
    be parsed, and the one of the project names the server with nothing
    under it. *)
Definition machine_files (config_path : str) : McpStatus.FileState :=
  if str_eqb config_path (lit "/home/dev/.claude.json") then
    McpStatus.Content
      (McpStatus.JDict
         [ (lit "mcpServers",
            McpStatus.JDict
              [ (lit "superclaude-enterprise",
                 McpStatus.JDict
                   [ (lit "command", McpStatus.JStr (lit "node"));
                     (lit "env",
                      McpStatus.JDict
                        [ (lit "SUPERCLAUDE_PYTHON",
                           McpStatus.JStr (lit "/srv/app/venv/bin/python"))
                        ]) ]) ]) ])
  else if str_eqb config_path (lit "/home/dev/.config/claude/mcp.json") then
    McpStatus.Unreadable
  else if str_eqb config_path (lit ".claude/settings.json") then
    McpStatus.Content
      (McpStatus.JDict
         [ (lit "mcpServers",
            McpStatus.JDict
              [ (lit "superclaude-enterprise",
                 McpStatus.JScalar (lit "None")) ]) ])
  else McpStatus.Absent.

(** ** Views of the output and of the log *)

(** The candidate a line of test-simple-fix.py is about. *)
Definition simple_line_name (l : TestSimpleFix.Line) : option str :=
  match l with
  | TestSimpleFix.not_set name
  | TestSimpleFix.found name _
  | TestSimpleFix.not_found name _
  | TestSimpleFix.not_accessible name _ => Some name
  | TestSimpleFix.selected _ => None
  end.

(** The path in the first line that says found. *)
Fixpoint simple_first_found (lines : list TestSimpleFix.Line) : option str :=
  match lines with
  | [] => None
  | TestSimpleFix.found _ python_path :: _ => Some python_path
  | _ :: rest => simple_first_found rest
  end.

(** The selection the loop ends with, from the one it starts with and the
    lines it prints. *)
Definition selection_after (working_python : option str)
           (lines : list TestSimpleFix.Line) : option str :=
  if truthy working_python then working_python
  else match simple_first_found lines with
       | Some p => Some p
       | None => working_python
       end.

(** The paths of the candidates that have one. *)
Fixpoint simple_probed (paths : list (str * option str)) : list str :=
  match paths with
  | [] => []
  | (_, Some (c :: p)) :: rest => (c :: p) :: simple_probed rest
  | _ :: rest => simple_probed rest
  end.

(** A call that did not end with exit status zero. *)
Definition failed (c : Call * RunOutcome) : bool := negb (exit_zero (snd c)).

(** The test a line of [run_test] announces. *)
Definition bridge_test_name (l : TestBridgeFunctionality.Line)
  : option str :=
  match l with
  | TestBridgeFunctionality.testing test_name => Some test_name
  | _ => None
  end.

Fixpoint bridge_test_names (lines : list TestBridgeFunctionality.Line)
  : list str :=
  match lines with
  | [] => []
  | l :: rest =>
      match bridge_test_name l with
      | Some n => n :: bridge_test_names rest
      | None => bridge_test_names rest
      end
  end.

(** The preview lines keep to their lengths: 100 and 200 characters. *)
Definition bridge_preview_ok (l : TestBridgeFunctionality.Line) : bool :=
  match l with
  | TestBridgeFunctionality.output_preview text => length text <=? 100
  | TestBridgeFunctionality.error_preview text => length text <=? 200
  | _ => true
  end.

(** ** A host whose console can fail and whose children need not finish *)

(** So far a [print] always succeeds and [subprocess.run] always comes back,
    with a result or an [Exception].  On a host neither is granted: a write
    to the console can raise (a [UnicodeEncodeError] where the console
    cannot encode a mark, an [OSError]), a child that nobody stops can run
    for ever, the calls of the probes having no [timeout], and the user can
    interrupt the script while it waits. *)

(** What a blocking operation of the host comes to: it finishes, it raises
    an [Exception], it is interrupted ([KeyboardInterrupt]), or it never
    returns. *)
Inductive Outcome (A : Type) :=
| Finished (a : A)
| Fails (e : Exception)
| Interrupted
| NeverReturns.

Arguments Finished {A} a.
Arguments Fails {A} e.
Arguments Interrupted {A}.
Arguments NeverReturns {A}.

Class Host := {
  Site : Type;
  host_run : Site -> Call -> Outcome CompletedProcess * Site;
  host_write : Site -> str -> Outcome unit * Site
}.

(** What travels up the stack: one of the exceptions of before, or
    [KeyboardInterrupt], which like [SystemExit] is no [Exception]. *)
Inductive Signal :=
| Error (e : BaseException)
| KeyboardInterrupt.

(** How a computation on the host ends. *)
Inductive Ending (A : Type) :=
| Ends (a : A)
| Throws (x : Signal)
| Hangs.

Arguments Ends {A} a.
Arguments Throws {A} x.
Arguments Hangs {A}.

Section HostScript.
Context {host : Host}.
Variable L : Type.

Record HState := mkHState {
  hworld : Site;
  hconsole : list L;
  hcalls : list (Call * Outcome CompletedProcess)
}.

Definition HM (A : Type) := HState -> Ending A * HState.

Definition ret_io {A} (a : A) : HM A := fun s => (Ends a, s).

Definition bind_io {A B} (c : HM A) (k : A -> HM B) : HM B :=
  fun s =>
    match c s with
    | (Ends a, s') => k a s'
    | (Throws x, s') => (Throws x, s')
    | (Hangs, s') => (Hangs, s')
    end.

Definition throw_io {A} (x : Signal) : HM A := fun s => (Throws x, s).

(** [try: body / except: handler]; what hangs is beyond any handler. *)
Definition try_io {A} (body : HM A) (handler : Signal -> HM A) : HM A :=
  fun s =>
    match body s with
    | (Ends a, s') => (Ends a, s')
    | (Throws x, s') => handler x s'
    | (Hangs, s') => (Hangs, s')
    end.

(** [print(line)]: the text of the line is written to the console; a write
    that does not finish leaves nothing of the line there. *)
Definition print_io (render : L -> str) (line : L) : HM unit :=
  fun s =>
    let (o, w') := host_write (hworld s) (render line) in
    match o with
    | Finished _ =>
        (Ends tt, mkHState w' (hconsole s ++ [line]) (hcalls s))
    | Fails e => (Throws (Error (Exc e)), mkHState w' (hconsole s) (hcalls s))
    | Interrupted =>
        (Throws KeyboardInterrupt, mkHState w' (hconsole s) (hcalls s))
    | NeverReturns => (Hangs, mkHState w' (hconsole s) (hcalls s))
    end.

(** [subprocess.run(...)] *)
Definition run_io (c : Call) : HM CompletedProcess :=
  fun s =>
    let (o, w') := host_run (hworld s) c in
    let s' := mkHState w' (hconsole s) (hcalls s ++ [(c, o)]) in
    match o with
    | Finished p => (Ends p, s')
    | Fails e => (Throws (Error (Exc e)), s')
    | Interrupted => (Throws KeyboardInterrupt, s')
    | NeverReturns => (Hangs, s')
    end.

Definition hstart (w : Site) : HState := mkHState w [] [].

Definition shown_since (s s' : HState) : list L :=
  skipn (length (hconsole s)) (hconsole s').

Definition asked_since (s s' : HState)
  : list (Call * Outcome CompletedProcess) :=
  skipn (length (hcalls s)) (hcalls s').
End HostScript.

Arguments ret_io {host L A} a.
Arguments throw_io {host L A} x.
Arguments print_io {host L} render line.
Arguments run_io {host L} c.
Arguments hstart {host L} w.

Declare Scope io_scope.
Delimit Scope io_scope with io.
Notation "x <- c1 ;; c2" := (bind_io c1 (fun x => c2))
  (at level 61, c1 at next level, right associativity) : io_scope.
Notation "c1 ;; c2" := (bind_io c1 (fun _ => c2))
  (at level 61, right associativity) : io_scope.

(** Every write succeeds, and every call of [subprocess.run] returns or
    raises an [Exception]. *)
Definition writes_succeed (host : Host) : Prop :=
  forall w text, fst (host_write w text) = Finished tt.

Definition children_finish (host : Host) : Prop :=
  forall w c,
    match fst (host_run w c) with
    | Finished _ | Fails _ => True
    | Interrupted | NeverReturns => False
    end.

(** *** verify-superclaude.py on a host *)

Module VerifyOnHost.
Import VerifySuperclaude.
Local Open Scope io_scope.

Section Program.
Context {host : Host}.

Definition check_superclaude (python_path env_name : str) : HM Line bool :=
  try_io
    (result <- run_io (import_check python_path) ;;
     if (returncode result =? 0)%Z
        && contains (lit "OK") (stdout result)
     then
       print_io render (found env_name) ;;
       details <- run_io (details_call python_path) ;;
       (if (returncode details =? 0)%Z
        then print_io render (details_out (strip (stdout details)))
        else ret_io tt) ;;
       ret_io true
     else
       print_io render (not_found env_name) ;;
       (if nonempty (stderr result)
        then print_io render (error_text (strip (stderr result)))
        else ret_io tt) ;;
       ret_io false)
    (fun x =>
       match x with
       | Error (Exc (FileNotFoundError _)) =>
           print_io render (python_not_found env_name python_path) ;;
           ret_io false
       | Error (Exc e) =>
           print_io render (error_exc env_name (exn_str e)) ;;
           ret_io false
       | _ => throw_io x
       end).

Fixpoint probe_loop (envs : list (str * str)) (found_count : nat)
  : HM Line nat :=
  match envs with
  | [] => ret_io found_count
  | (env_name, python_path) :: rest =>
      ok <- check_superclaude python_path env_name ;;
      let found_count := if ok then S found_count else found_count in
      print_io render blank ;;
      probe_loop rest found_count
  end.

Definition verify (envs : list (str * str)) : HM Line nat :=
  found_count <- probe_loop envs 0 ;;
  print_io render (summary found_count) ;;
  ret_io found_count.
End Program.

End VerifyOnHost.

(** *** test-simple-fix.py on a host *)

Module SimpleFixOnHost.
Import TestSimpleFix.
Local Open Scope io_scope.

Section Program.
Context {host : Host}.

(** The bare [except] takes whatever is raised, a failed write of the
    found line and an interrupt included. *)
Definition probe (name python_path : str) (working_python : option str)
  : HM Line (option str) :=
  try_io
    (result <- run_io (import_check python_path) ;;
     if (returncode result =? 0)%Z then
       print_io render (found name python_path) ;;
       if negb (truthy working_python)
       then ret_io (Some python_path)
       else ret_io working_python
     else
       print_io render (not_found name python_path) ;;
       ret_io working_python)
    (fun _ =>
       print_io render (not_accessible name python_path) ;;
       ret_io working_python).

Fixpoint detect_loop (paths : list (str * option str))
         (working_python : option str) : HM Line (option str) :=
  match paths with
  | [] => ret_io working_python
  | (name, python_path) :: rest =>
      match python_path with
      | None | Some [] =>
          print_io render (not_set name) ;;
          detect_loop rest working_python
      | Some p =>
          working_python <- probe name p working_python ;;
          detect_loop rest working_python
      end
  end.

Definition detect (paths : list (str * option str))
  : HM Line (option str) :=
  working_python <- detect_loop paths None ;;
  print_io render (selected working_python) ;;
  ret_io working_python.
End Program.

End SimpleFixOnHost.

(** *** test-bridge-functionality.py on a host *)

Module BridgeOnHost.
Import TestBridgeFunctionality.
Local Open Scope io_scope.

Section Program.
Context {host : Host}.

Definition probe (py : str) : HM Line bool :=
  try_io
    (result <- run_io (import_call py) ;;
     if (returncode result =? 0)%Z then ret_io true else ret_io false)
    (fun _ => ret_io false).

Fixpoint find_python (pys : list str) : HM Line (option str) :=
  match pys with
  | [] => ret_io None
  | py :: rest =>
      if nonempty py && negb (str_eqb py [])
      then
        hit <- probe py ;;
        if hit then ret_io (Some py) else find_python rest
      else find_python rest
  end.

Definition run_test (test_name : str) (cmd : list str) : HM Line unit :=
  print_io render (testing test_name) ;;
  print_io render (command (join_space cmd)) ;;
  try_io
    (result <- run_io (test_call cmd) ;;
     if (returncode result =? 0)%Z then
       print_io render success ;;
       if nonempty (stdout result)
       then print_io render (output_preview (firstn 100 (stdout result)))
       else ret_io tt
     else
       print_io render (failed_with_code (returncode result)) ;;
       if nonempty (stderr result)
       then print_io render (error_preview (firstn 200 (stderr result)))
       else ret_io tt)
    (fun x =>
       match x with
       | Error (Exc (TimeoutExpired _)) => print_io render timed_out
       | Error (Exc e) => print_io render (error_exc (exn_str e))
       | _ => throw_io x
       end).

Fixpoint run_tests (tests : list (str * list str)) : HM Line unit :=
  match tests with
  | [] => ret_io tt
  | (test_name, cmd) :: rest =>
      run_test test_name cmd ;;
      run_tests rest
  end.

Definition command_execution (pys : list str) : HM Line unit :=
  python_cmd <- find_python pys ;;
  match python_cmd with
  | None | Some [] =>
      print_io render no_python ;; throw_io (Error (SystemExit 1))
  | Some py =>
      print_io render (using_python py) ;; run_tests (test_commands py)
  end.
End Program.

End BridgeOnHost.

(** *** The check of the MCP configuration on a host *)

Module McpOnHost.
Import McpStatus.
Local Open Scope io_scope.

Section Program.
Context {host : Host}.
Variable read_config : str -> FileState.
(** The text of a line; that of a configured value is what [str] makes of
    it. *)
Variable render : Line -> str.

Definition py_in (key : str) (x : json) : HM Line bool :=
  match x with
  | JDict items =>
      ret_io (match lookup key items with Some _ => true | None => false end)
  | JList items => ret_io (existsb (is_str key) items)
  | JStr s => ret_io (contains key s)
  | JScalar _ => throw_io (Error TypeError)
  end.

Definition py_getitem (x : json) (key : str) : HM Line json :=
  match x with
  | JDict items =>
      match lookup key items with
      | Some v => ret_io v
      | None => throw_io (Error KeyError)
      end
  | _ => throw_io (Error TypeError)
  end.

Definition inspect (config_path : str) (config : json) : HM Line bool :=
  has_servers <- py_in (lit "mcpServers") config ;;
  has_server <-
    (if has_servers then
       servers <- py_getitem config (lit "mcpServers") ;;
       py_in (lit "superclaude-enterprise") servers
     else ret_io false) ;;
  if has_server then
    print_io render (configured config_path) ;;
    servers <- py_getitem config (lit "mcpServers") ;;
    server_config <- py_getitem servers (lit "superclaude-enterprise") ;;
    has_env <- py_in (lit "env") server_config ;;
    has_python <-
      (if has_env then
         env <- py_getitem server_config (lit "env") ;;
         py_in (lit "SUPERCLAUDE_PYTHON") env
       else ret_io false) ;;
    (if has_python then
       env <- py_getitem server_config (lit "env") ;;
       value <- py_getitem env (lit "SUPERCLAUDE_PYTHON") ;;
       print_io render (python_path_configured value)
     else ret_io tt) ;;
    ret_io true
  else ret_io false.

(** [os.path.exists(config_path)] *)
Definition path_exists (config_path : str) : bool :=
  match read_config config_path with
  | Absent => false
  | _ => true
  end.

(** [open] and [json.load]; the exception they raise on a file that cannot
    be opened or parsed goes to the bare [except], which does not look at
    it. *)
Definition load (config_path : str) : HM Line json :=
  match read_config config_path with
  | Content config => ret_io config
  | _ => throw_io (Error (Exc (OtherException (lit "cannot load"))))
  end.

Definition check_config (config_path : str) : HM Line bool :=
  if path_exists config_path then
    try_io (config <- load config_path ;; inspect config_path config)
           (fun _ => ret_io false)
  else ret_io false.

Fixpoint config_loop (paths : list str) : HM Line bool :=
  match paths with
  | [] => ret_io false
  | config_path :: rest =>
      hit <- check_config config_path ;;
      if hit then ret_io true else config_loop rest
  end.

Definition mcp_status (paths : list str) : HM Line bool :=
  mcp_configured <- config_loop paths ;;
  (if negb mcp_configured then print_io render not_configured
   else ret_io tt) ;;
  ret_io mcp_configured.
End Program.

End McpOnHost.

(** *** Two hosts *)

(** The host of an operating system of before: what [subprocess.run] does
    is what it did there, and every write succeeds. *)
Definition hosted (os : OS) : Host := {|
  Site := World;
  host_run w c :=
    match subprocess_run w c with
    | (Completes p, w') => (Finished p, w')
    | (Raises e, w') => (Fails e, w')
    end;
  host_write w _ := (Finished tt, w)
|}.

(** A state, a result and a logged outcome of before, seen on that host. *)
Definition on_host_outcome (o : RunOutcome) : Outcome CompletedProcess :=
  match o with
  | Completes p => Finished p
  | Raises e => Fails e
  end.

Definition on_host_state {os : OS} {L} (s : State L)
  : HState (host := hosted os) L :=
  mkHState (host := hosted os) (world s) (console s)
           (map (fun c => (fst c, on_host_outcome (snd c))) (calls s)).

Definition on_host_result {A} (r : Result A) : Ending A :=
  match r with
  | Returned a => Ends a
  | Raised e => Throws (Error e)
  end.

(** The machine with a console that encodes ASCII only: a write of any
    other character raises [UnicodeEncodeError]. *)
Definition ascii_only (text : str) : bool :=
  forallb (fun c => (c <? 128)%N) text.

Definition encode_error : Exception :=
  OtherException (lit "'ascii' codec can't encode character").

Definition ascii_machine : Host := {|
  Site := nat;
  host_run w c :=
    match machine_run w c with
    | (Completes p, w') => (Finished p, w')
    | (Raises e, w') => (Fails e, w')
    end;
  host_write w text :=
    if ascii_only text then (Finished tt, w) else (Fails encode_error, w)
|}.

(** The text of the lines of the MCP check, for the files of the machine,
    in which the configured interpreter is a string. *)
Definition machine_mcp_text (l : McpStatus.Line) : str :=
  match l with
  | McpStatus.configured config_path =>
      lit "   " ++ [10003%N] ++ lit " MCP server configured in "
      ++ config_path
  | McpStatus.python_path_configured value =>
      lit "   " ++ [10003%N] ++ lit " Python path configured: "
      ++ match value with
         | McpStatus.JStr s => s
         | McpStatus.JScalar shown => shown
         | _ => []
         end
  | McpStatus.not_configured =>
      lit "   " ++ [9888%N; 65039%N] ++ lit "  MCP server not configured"
  end.

(** * Properties *)

(** ** The monad and the log *)

Lemma skipn_length_app {A} (l r : list A) : skipn (length l) (l ++ r) = r.
Proof. induction l as [|x l IH]; simpl; auto. Qed.

Lemma startswith_app (x post : str) : startswith x (x ++ post) = true.
Proof.
  induction x as [|c x IH]; simpl; auto. now rewrite N.eqb_refl, IH.
Qed.

Lemma contains_unfold (needle hay : str) :
  contains needle hay
  = startswith needle hay
    || match hay with
       | [] => false
       | _ :: hay' => contains needle hay'
       end.
Proof. destruct hay; reflexivity. Qed.

Lemma contains_middle (pre x post : str) :
  contains x (pre ++ x ++ post) = true.
Proof.
  induction pre as [|c pre IH].
  - simpl. rewrite contains_unfold, startswith_app. reflexivity.
  - simpl. rewrite IH. apply orb_true_r.
Qed.

Lemma rev_repeat_same {A} (x : A) (n : nat) : rev (repeat x n) = repeat x n.
Proof.
  induction n as [|n IH]; simpl; auto.
  rewrite IH. symmetry. apply repeat_cons.
Qed.

(** Text without white space at either end is left as it is. *)
Lemma strip_repeat (c : N) (n : nat) :
  isspace c = false -> strip (repeat c n) = repeat c n.
Proof.
  intros Hc. unfold strip, rstrip, lstrip.
  assert (H : dropwhile isspace (repeat c n) = repeat c n).
  { destruct n; simpl; auto. now rewrite Hc. }
  rewrite H, rev_repeat_same, H. apply rev_repeat_same.
Qed.

Section ScriptFacts.
Context {os : OS} {L : Type}.

Lemma printed_since_app (s s' : State L) (out : list L) :
  console s' = console s ++ out -> printed_since s s' = out.
Proof. unfold printed_since. intros ->. apply skipn_length_app. Qed.

Lemma calls_since_app (s s' : State L) (cs : list (Call * RunOutcome)) :
  calls s' = calls s ++ cs -> calls_since s s' = cs.
Proof. unfold calls_since. intros ->. apply skipn_length_app. Qed.
End ScriptFacts.

(** Unfolds the monad of a script down to the calls of [subprocess_run]. *)
Ltac script_unfold :=
  unfold bind, try_except, print, ret, raise, run in *; simpl in *.

(** ** verify-superclaude.py: [check_superclaude] *)

Section VerifyFacts.
Import VerifySuperclaude.
Context {os : OS}.

Lemma check_first_call_raises python_path env_name (s : State Line) e w1 :
  subprocess_run (world s) (import_check python_path) = (Raises e, w1) ->
  check_superclaude python_path env_name s
  = (Returned false,
     mkState w1 (console s ++ [except_line env_name python_path e])
             (calls s ++ [(import_check python_path, Raises e)])).
Proof.
  intros E. unfold check_superclaude. script_unfold. rewrite E.
  destruct e; reflexivity.
Qed.

Lemma check_import_not_ok python_path env_name (s : State Line) p w1 :
  subprocess_run (world s) (import_check python_path) = (Completes p, w1) ->
  import_ok p = false ->
  check_superclaude python_path env_name s
  = (Returned false,
     mkState w1 (console s ++ failure_lines env_name p)
             (calls s ++ [(import_check python_path, Completes p)])).
Proof.
  intros E Hok. unfold check_superclaude, failure_lines, import_ok in *.
  script_unfold. rewrite E. simpl. rewrite Hok. simpl.
  destruct (nonempty (stderr p)); simpl;
    rewrite <- ?app_assoc; reflexivity.
Qed.

Lemma check_details_return python_path env_name (s : State Line)
      p w1 d w2 :
  subprocess_run (world s) (import_check python_path) = (Completes p, w1) ->
  import_ok p = true ->
  subprocess_run w1 (details_call python_path) = (Completes d, w2) ->
  check_superclaude python_path env_name s
  = (Returned true,
     mkState w2 (console s ++ success_lines env_name d)
             (calls s ++ [(import_check python_path, Completes p);
                          (details_call python_path, Completes d)])).
Proof.
  intros E Hok E2. unfold check_superclaude, success_lines, import_ok in *.
  script_unfold. rewrite E. simpl. rewrite Hok. simpl. rewrite E2. simpl.
  destruct (returncode d =? 0)%Z; simpl;
    rewrite <- ?app_assoc; reflexivity.
Qed.

Lemma check_details_raise python_path env_name (s : State Line)
      p w1 e w2 :
  subprocess_run (world s) (import_check python_path) = (Completes p, w1) ->
  import_ok p = true ->
  subprocess_run w1 (details_call python_path) = (Raises e, w2) ->
  check_superclaude python_path env_name s
  = (Returned false,
     mkState w2
             (console s
              ++ [found env_name; except_line env_name python_path e])
             (calls s ++ [(import_check python_path, Completes p);
                          (details_call python_path, Raises e)])).
Proof.
  intros E Hok E2. unfold check_superclaude, import_ok in *.
  script_unfold. rewrite E. simpl. rewrite Hok. simpl. rewrite E2. simpl.
  destruct e; simpl; rewrite <- ?app_assoc; reflexivity.
Qed.
(** [check_superclaude] always returns, and what it prints is a block. *)
Lemma check_superclaude_block python_path env_name (s : State Line) :
  exists ok lines cs w',
    check_superclaude python_path env_name s
    = (Returned ok, mkState w' (console s ++ lines) (calls s ++ cs))
    /\ block_of env_name ok lines.
Proof.
  destruct (subprocess_run (world s) (import_check python_path))
    as [[p|e] w1] eqn:E.
  - destruct (import_ok p) eqn:Hok.
    + destruct (subprocess_run w1 (details_call python_path))
        as [[d|e] w2] eqn:E2.
      * eexists _, _, _, _. split.
        { eapply check_details_return; eauto. }
        unfold block_of, success_lines.
        destruct (returncode d =? 0)%Z; simpl; auto.
      * eexists _, _, _, _. split.
        { eapply check_details_raise; eauto. }
        unfold block_of. destruct e; simpl; auto.
    + eexists _, _, _, _. split.
      { eapply check_import_not_ok; eauto. }
      unfold block_of, failure_lines.
      destruct (nonempty (stderr p)); simpl; auto.
  - eexists _, _, _, _. split.
    { eapply check_first_call_raises; eauto. }
    unfold block_of. destruct e; simpl; auto.
Qed.
Lemma check_superclaude_verdict python_path env_name (s : State Line) :
  fst (check_superclaude python_path env_name s)
  = Returned (verdict python_path (world s)).
Proof.
  unfold verdict.
  destruct (subprocess_run (world s) (import_check python_path))
    as [[p|e] w1] eqn:E.
  - fold (import_ok p). destruct (import_ok p) eqn:Hok.
    + destruct (subprocess_run w1 (details_call python_path))
        as [[d|e] w2] eqn:E2; simpl.
      * erewrite check_details_return; eauto.
      * erewrite check_details_raise; eauto.
    + erewrite check_import_not_ok; eauto.
  - erewrite check_first_call_raises; eauto.
Qed.

(** ** verify-superclaude.py: the loop over the environments *)

Lemma blocks_from_block cur lines rest :
  existsb is_blank lines = false ->
  blocks_from cur (lines ++ blank :: rest)
  = (rev cur ++ lines) :: blocks_from [] rest.
Proof.
  revert cur. induction lines as [|l lines IH]; intros cur Hnb.
  - simpl. rewrite app_nil_r. reflexivity.
  - simpl in Hnb. apply orb_false_iff in Hnb as [Hl Hrest].
    specialize (IH (l :: cur) Hrest). simpl in IH.
    rewrite <- app_assoc in IH. simpl in IH.
    destruct l; simpl in *; try discriminate; exact IH.
Qed.

Lemma blocks_block lines rest :
  existsb is_blank lines = false ->
  blocks (lines ++ blank :: rest) = lines :: blocks rest.
Proof. intros H. unfold blocks. now rewrite blocks_from_block. Qed.

End VerifyFacts.

(** C6, as stated, fails: on the machine, the call with the empty candidate
    list returns the count 0 instead of raising. *)
Lemma verify_empty_list_returns :
  VerifySuperclaude.verify (os := machine) [] (start (os := machine) 0)
  = (Returned 0,
     mkState (os := machine) 0 [VerifySuperclaude.summary 0] [])
  /\ ~ (exists e s',
          VerifySuperclaude.verify (os := machine) [] (start (os := machine) 0)
          = (Raised e, s')).
Proof.
  split; [reflexivity|]. intros (e & s' & H). discriminate H.
Qed.

(** C8.  The import check of the candidate passes (exit status 0, marker
    printed) and the second call, the one for the details, raises while
    decoding what the child wrote: [check_superclaude] has already printed
    the found line, and then prints an error line and returns [False]. *)
Theorem check_superclaude_details_failure_downgrades :
  VerifySuperclaude.check_superclaude (os := scripted)
    (lit "python3") (lit "System Python")
    (start (os := scripted)
       [ Completes (mkCompleted 0 (lit "OK" ++ [10%N]) []);
         Raises (OtherException (lit "invalid continuation byte")) ])
  = (Returned false,
     mkState (os := scripted) []
       [ VerifySuperclaude.found (lit "System Python");
         VerifySuperclaude.error_exc (lit "System Python")
           (lit "invalid continuation byte") ]
       [ (VerifySuperclaude.import_check (lit "python3"),
          Completes (mkCompleted 0 (lit "OK" ++ [10%N]) []));
         (VerifySuperclaude.details_call (lit "python3"),
          Raises (OtherException (lit "invalid continuation byte"))) ]).
Proof. reflexivity. Qed.

(** ** test-simple-fix.py: the loop that sets [working_python] *)

Section SimpleFixFacts.
Import TestSimpleFix.
Context {os : OS}.

Lemma probe_spec name python_path working_python (s : State Line) :
  probe name python_path working_python s
  = let (o, w1) := subprocess_run (world s) (import_check python_path) in
    (Returned (after_probe python_path working_python (exit_zero o)),
     mkState w1 (console s ++ [outcome_line name python_path o])
             (calls s ++ [(import_check python_path, o)])).
Proof.
  unfold probe, after_probe. script_unfold.
  destruct (subprocess_run (world s) (import_check python_path))
    as [[p|e] w1]; simpl; auto.
  destruct (returncode p =? 0)%Z; simpl; auto.
  destruct (truthy working_python); reflexivity.
Qed.

(** One turn of the loop. *)
Lemma detect_loop_step c rest working_python (s : State Line) :
  detect_loop (c :: rest) working_python s
  = detect_loop rest
      (if succeeds c (world s)
       then if negb (truthy working_python) then snd c else working_python
       else working_python)
      (turn s c).
Proof.
  destruct c as [name [[|ch p]|]]; unfold succeeds, turn; simpl;
    try reflexivity.
  unfold bind. rewrite !probe_spec.
  destruct (subprocess_run (world s) (import_check (ch :: p)))
    as [o w1]; simpl.
  unfold after_probe. destruct (exit_zero o); reflexivity.
Qed.

(** Once a non-empty path is selected the loop keeps it. *)
Lemma detect_loop_keeps paths working_python (s : State Line) :
  truthy working_python = true ->
  fst (detect_loop paths working_python s) = Returned working_python.
Proof.
  revert s. induction paths as [|c rest IH]; intros s Hwp.
  - reflexivity.
  - rewrite detect_loop_step, Hwp. simpl.
    destruct (succeeds c (world s)); apply IH; assumption.
Qed.

Lemma succeeds_truthy c w : succeeds c w = true -> truthy (snd c) = true.
Proof.
  unfold succeeds, truthy. destruct (snd c); [|discriminate].
  intros H. apply andb_true_iff in H. tauto.
Qed.

(** The first candidate that succeeds is the one selected. *)
Lemma detect_loop_first_success paths i (s : State Line) c :
  nth_error paths i = Some c ->
  succeeds_at paths i s = true ->
  (forall j, j < i -> succeeds_at paths j s = false) ->
  fst (detect_loop paths None s) = Returned (snd c).
Proof.
  revert i s. induction paths as [|c0 rest IH]; intros i s Hnth Hi Hbefore.
  - destruct i; discriminate.
  - rewrite detect_loop_step. destruct i as [|i].
    + injection Hnth as ->. unfold succeeds_at, state_at in Hi.
      simpl in Hi.
      rewrite Hi. simpl. apply detect_loop_keeps.
      eapply succeeds_truthy; eauto.
    + assert (H0 := Hbefore 0 ltac:(lia)).
      unfold succeeds_at, state_at in H0. simpl in H0. rewrite H0.
      apply (IH i); auto.
      intros j Hj. apply (Hbefore (S j)). lia.
Qed.

(** When the verdict on each candidate does not depend on the world, the
    selection does not depend on the state the loop starts in. *)
Lemma detect_loop_stable paths :
  (forall c, In c paths -> forall w w', succeeds c w = succeeds c w') ->
  forall working_python (s s' : State Line),
    fst (detect_loop paths working_python s)
    = fst (detect_loop paths working_python s').
Proof.
  induction paths as [|c rest IH]; intros Hst wp s s'.
  - reflexivity.
  - rewrite !detect_loop_step.
    rewrite (Hst c (or_introl eq_refl) (world s) (world s')).
    apply IH. intros c' Hin. apply Hst. right. exact Hin.
Qed.

(** A candidate without a path gets the line [not_set] and nothing else. *)
Lemma detect_loop_skip name python_path rest working_python
      (s : State Line) :
  truthy python_path = false ->
  detect_loop ((name, python_path) :: rest) working_python s
  = detect_loop rest working_python
      (mkState (world s) (console s ++ [not_set name]) (calls s)).
Proof.
  destruct python_path as [[|ch p]|]; simpl; intros H;
    try discriminate; reflexivity.
Qed.

Lemma turn_same c (s s' : State Line) :
  same_probing s s' -> same_probing (turn s c) (turn s' c).
Proof.
  unfold same_probing. intros (Hw & Hc & Hf).
  destruct c as [name [[|ch p]|]]; unfold turn; simpl;
    unfold bind; try rewrite !probe_spec.
  1, 3: simpl; rewrite !filter_app, Hf; auto.
  rewrite <- Hw.
  destruct (subprocess_run (world s) (import_check (ch :: p))) as [o w1].
  simpl. rewrite !filter_app, Hf, Hc. auto.
Qed.

Lemma detect_loop_same paths working_python (s s' : State Line) :
  same_probing s s' ->
  fst (detect_loop paths working_python s)
  = fst (detect_loop paths working_python s')
  /\ same_probing (snd (detect_loop paths working_python s))
                  (snd (detect_loop paths working_python s')).
Proof.
  revert working_python s s'.
  induction paths as [|c rest IH]; intros wp s s' Hsame.
  - simpl. auto.
  - rewrite !detect_loop_step.
    destruct Hsame as (Hw & Hrest). rewrite <- Hw.
    apply IH. apply turn_same. split; assumption.
Qed.

(** Taking a candidate without a path out of the list changes neither the
    selection, nor the calls made, nor the world, nor the outcome lines. *)
Lemma detect_loop_without pre name python_path post working_python
      (s : State Line) :
  truthy python_path = false ->
  fst (detect_loop (pre ++ (name, python_path) :: post) working_python s)
  = fst (detect_loop (pre ++ post) working_python s)
  /\ same_probing
       (snd (detect_loop (pre ++ (name, python_path) :: post)
                         working_python s))
       (snd (detect_loop (pre ++ post) working_python s)).
Proof.
  intros Hno. revert working_python s.
  induction pre as [|c pre IH]; intros wp s.
  - simpl app. rewrite detect_loop_skip by assumption.
    apply detect_loop_same. unfold same_probing. simpl.
    rewrite filter_app. simpl. rewrite app_nil_r. auto.
  - simpl app. rewrite !detect_loop_step. apply IH.
Qed.
End SimpleFixFacts.

(** ** test-bridge-functionality.py: the loop that sets [python_cmd] *)

Section BridgeFacts.
Import TestBridgeFunctionality.
Context {os : OS}.

Lemma bridge_probe_spec py (s : State Line) :
  probe py s
  = let (o, w1) := subprocess_run (world s) (import_call py) in
    (Returned (exit_zero o),
     mkState w1 (console s) (calls s ++ [(import_call py, o)])).
Proof.
  unfold probe. script_unfold.
  destruct (subprocess_run (world s) (import_call py)) as [[p|e] w1];
    simpl; auto.
  destruct (returncode p =? 0)%Z; reflexivity.
Qed.

(** One turn of the loop: stop with the candidate, or go on. *)
Lemma find_python_step py rest (s : State Line) :
  find_python (py :: rest) s
  = if succeeds py (world s)
    then (Returned (Some py), turn s py)
    else find_python rest (turn s py).
Proof.
  destruct py as [|ch p]; unfold succeeds, turn; simpl; [reflexivity|].
  unfold bind. rewrite !bridge_probe_spec.
  destruct (subprocess_run (world s) (import_call (ch :: p))) as [o w1].
  simpl. destruct (exit_zero o); reflexivity.
Qed.

Lemma find_python_first_success pys i (s : State Line) py :
  nth_error pys i = Some py ->
  succeeds_at pys i s = true ->
  (forall j, j < i -> succeeds_at pys j s = false) ->
  fst (find_python pys s) = Returned (Some py).
Proof.
  revert i s. induction pys as [|py0 rest IH]; intros i s Hnth Hi Hbefore.
  - destruct i; discriminate.
  - rewrite find_python_step. destruct i as [|i].
    + injection Hnth as ->. unfold succeeds_at, state_at in Hi.
      simpl in Hi. rewrite Hi. reflexivity.
    + assert (H0 := Hbefore 0 ltac:(lia)).
      unfold succeeds_at, state_at in H0. simpl in H0. rewrite H0.
      apply (IH i); auto.
      intros j Hj. apply (Hbefore (S j)). lia.
Qed.

Lemma find_python_stable pys :
  (forall py, In py pys -> forall w w', succeeds py w = succeeds py w') ->
  forall s s' : State Line,
    fst (find_python pys s) = fst (find_python pys s').
Proof.
  induction pys as [|py rest IH]; intros Hst s s'.
  - reflexivity.
  - rewrite !find_python_step.
    rewrite (Hst py (or_introl eq_refl) (world s) (world s')).
    destruct (succeeds py (world s')); [reflexivity|].
    apply IH. intros py' Hin. apply Hst. right. exact Hin.
Qed.

Lemma run_test_spec test_name cmd (s : State Line) :
  run_test test_name cmd s
  = let (o, w1) := subprocess_run (world s) (test_call cmd) in
    (Returned tt,
     mkState w1
       (console s
        ++ testing test_name :: command (join_space cmd) :: test_lines o)
       (calls s ++ [(test_call cmd, o)])).
Proof.
  unfold run_test, test_lines. script_unfold.
  destruct (subprocess_run (world s) (test_call cmd)) as [[p|e] w1];
    simpl.
  - destruct (returncode p =? 0)%Z; simpl;
      [destruct (nonempty (stdout p))|destruct (nonempty (stderr p))];
      simpl; rewrite <- !app_assoc; reflexivity.
  - destruct e; simpl; rewrite <- !app_assoc; reflexivity.
Qed.

(** An empty candidate leaves no trace at all. *)
Lemma find_python_without pre py post (s : State Line) :
  nonempty py = false ->
  find_python (pre ++ py :: post) s = find_python (pre ++ post) s.
Proof.
  intros Hno. revert s. induction pre as [|py0 pre IH]; intros s.
  - destruct py; [reflexivity|discriminate].
  - simpl app. rewrite !find_python_step.
    destruct (succeeds py0 (world s)); [reflexivity|]. apply IH.
Qed.
End BridgeFacts.

(** ** Selection: the first success, skipped candidates, repeated calls *)

Section SelectionClaims.
Context {os : OS}.

Lemma detect_selects paths (s : State TestSimpleFix.Line) :
  fst (TestSimpleFix.detect paths s)
  = fst (TestSimpleFix.detect_loop paths None s).
Proof.
  unfold TestSimpleFix.detect, bind.
  destruct (TestSimpleFix.detect_loop paths None s) as [[r|e] s1];
    reflexivity.
Qed.

(** C1.  In test-simple-fix.py and in test-bridge-functionality.py, when
    the candidate at index [i] succeeds in the state in which the loop
    reaches it and no candidate at an index below [i] succeeds in its
    turn, the selection ([working_python], [python_cmd]) is the path of
    the candidate at index [i], whatever the candidates after it do. *)
Theorem first_success_is_selected :
  (forall paths i c (s : State TestSimpleFix.Line),
      nth_error paths i = Some c ->
      TestSimpleFix.succeeds_at paths i s = true ->
      (forall j, j < i -> TestSimpleFix.succeeds_at paths j s = false) ->
      fst (TestSimpleFix.detect paths s) = Returned (snd c))
  /\ (forall pys i py (s : State TestBridgeFunctionality.Line),
        nth_error pys i = Some py ->
        TestBridgeFunctionality.succeeds_at pys i s = true ->
        (forall j, j < i ->
                   TestBridgeFunctionality.succeeds_at pys j s = false) ->
        fst (TestBridgeFunctionality.find_python pys s)
        = Returned (Some py)).
Proof.
  split.
  - intros paths i c s Hnth Hi Hbefore. rewrite detect_selects.
    eapply detect_loop_first_success; eauto.
  - intros pys i py s. apply find_python_first_success.
Qed.

(** C9.  When, for each candidate of the list, the verdict does not
    depend on the world in which it is probed, a second call made in the
    state the first call leaves selects what the first call selected; and
    [check_superclaude] gives a candidate the same verdict both times. *)
Theorem selection_is_idempotent :
  (forall paths,
      (forall c, In c paths ->
                 forall w w', TestSimpleFix.succeeds c w
                              = TestSimpleFix.succeeds c w') ->
      forall s : State TestSimpleFix.Line,
        fst (TestSimpleFix.detect paths
               (snd (TestSimpleFix.detect paths s)))
        = fst (TestSimpleFix.detect paths s))
  /\ (forall pys,
        (forall py, In py pys ->
                    forall w w', TestBridgeFunctionality.succeeds py w
                                 = TestBridgeFunctionality.succeeds py w') ->
        forall s : State TestBridgeFunctionality.Line,
          fst (TestBridgeFunctionality.find_python pys
                 (snd (TestBridgeFunctionality.find_python pys s)))
          = fst (TestBridgeFunctionality.find_python pys s))
  /\ (forall python_path env_name,
        (forall w w', VerifySuperclaude.verdict python_path w
                      = VerifySuperclaude.verdict python_path w') ->
        forall s : State VerifySuperclaude.Line,
          fst (VerifySuperclaude.check_superclaude python_path env_name
                 (snd (VerifySuperclaude.check_superclaude
                         python_path env_name s)))
          = fst (VerifySuperclaude.check_superclaude
                   python_path env_name s)).
Proof.
  split; [|split].
  - intros paths Hst s. rewrite !detect_selects.
    apply detect_loop_stable. exact Hst.
  - intros pys Hst s. apply find_python_stable. exact Hst.
  - intros python_path env_name Hst s.
    rewrite !check_superclaude_verdict. f_equal. apply Hst.
Qed.

(** C10.  A candidate whose path is empty or not set is passed over: in
    test-simple-fix.py its turn prints the line [not_set] and changes
    nothing else, and the list without it gives the same selection, the
    same calls, the same world and the same outcome lines; in
    test-bridge-functionality.py the list without it behaves in exactly
    the same way. *)
Theorem unset_candidate_is_skipped :
  (forall name python_path rest working_python
          (s : State TestSimpleFix.Line),
      truthy python_path = false ->
      TestSimpleFix.detect_loop ((name, python_path) :: rest)
                                working_python s
      = TestSimpleFix.detect_loop rest working_python
          (mkState (world s) (console s ++ [TestSimpleFix.not_set name])
                   (calls s)))
  /\ (forall pre name python_path post (s : State TestSimpleFix.Line),
        truthy python_path = false ->
        fst (TestSimpleFix.detect_loop
               (pre ++ (name, python_path) :: post) None s)
        = fst (TestSimpleFix.detect_loop (pre ++ post) None s)
        /\ TestSimpleFix.same_probing
             (snd (TestSimpleFix.detect_loop
                     (pre ++ (name, python_path) :: post) None s))
             (snd (TestSimpleFix.detect_loop (pre ++ post) None s)))
  /\ (forall pre py post (s : State TestBridgeFunctionality.Line),
        nonempty py = false ->
        TestBridgeFunctionality.find_python (pre ++ py :: post) s
        = TestBridgeFunctionality.find_python (pre ++ post) s).
Proof.
  split; [|split].
  - intros. now apply detect_loop_skip.
  - intros. now apply detect_loop_without.
  - intros. now apply find_python_without.
Qed.
End SelectionClaims.

(** ** One candidate: verdict, diagnostic, missing program, time limit *)

Section CandidateClaims.
Context {os : OS}.

(** C3, as the code has it.  [check_superclaude] returns [True] only if
    the child of the import check exits with status zero and the marker
    OK is in its captured standard output, and it does return [True] then
    whenever the call for the details returns.  If the exit status is not
    zero or the marker is absent it returns [False], having printed the
    not-found line and, when the captured standard error is not empty,
    that text with the white space at its ends removed, in full.  The
    loop of test-simple-fix.py prints its found line exactly when the
    exit status is zero, and no error text. *)
Theorem check_superclaude_verdict_and_diagnostic :
  (forall python_path env_name (s : State VerifySuperclaude.Line),
      fst (VerifySuperclaude.check_superclaude python_path env_name s)
      = Returned true ->
      exists p w1,
        subprocess_run (world s)
                       (VerifySuperclaude.import_check python_path)
        = (Completes p, w1)
        /\ returncode p = 0%Z
        /\ contains (lit "OK") (stdout p) = true)
  /\ (forall python_path env_name (s : State VerifySuperclaude.Line)
             p w1 d w2,
        subprocess_run (world s)
                       (VerifySuperclaude.import_check python_path)
        = (Completes p, w1) ->
        returncode p = 0%Z ->
        contains (lit "OK") (stdout p) = true ->
        subprocess_run w1 (VerifySuperclaude.details_call python_path)
        = (Completes d, w2) ->
        fst (VerifySuperclaude.check_superclaude python_path env_name s)
        = Returned true)
  /\ (forall python_path env_name (s : State VerifySuperclaude.Line) p w1,
        subprocess_run (world s)
                       (VerifySuperclaude.import_check python_path)
        = (Completes p, w1) ->
        returncode p <> 0%Z \/ contains (lit "OK") (stdout p) = false ->
        VerifySuperclaude.check_superclaude python_path env_name s
        = (Returned false,
           mkState w1
             (console s
              ++ VerifySuperclaude.not_found env_name
                 :: (if nonempty (stderr p)
                     then [VerifySuperclaude.error_text (strip (stderr p))]
                     else []))
             (calls s
              ++ [(VerifySuperclaude.import_check python_path,
                   Completes p)])))
  /\ (forall name python_path working_python
             (s : State TestSimpleFix.Line) p w1,
        subprocess_run (world s) (TestSimpleFix.import_check python_path)
        = (Completes p, w1) ->
        printed_since s
          (snd (TestSimpleFix.probe name python_path working_python s))
        = [if (returncode p =? 0)%Z
           then TestSimpleFix.found name python_path
           else TestSimpleFix.not_found name python_path]).
Proof.
  split; [|split; [|split]].
  - intros python_path env_name s Htrue.
    rewrite check_superclaude_verdict in Htrue.
    injection Htrue as Hv. unfold VerifySuperclaude.verdict in Hv.
    destruct (subprocess_run (world s)
                (VerifySuperclaude.import_check python_path))
      as [[p|e] w1]; [|discriminate].
    apply andb_true_iff in Hv as [Hv _].
    apply andb_true_iff in Hv as [Hrc Hok].
    exists p, w1. repeat split; auto. now apply Z.eqb_eq.
  - intros python_path env_name s p w1 d w2 E Hrc Hok E2.
    erewrite check_details_return; eauto.
    unfold VerifySuperclaude.import_ok. rewrite Hrc, Hok. reflexivity.
  - intros python_path env_name s p w1 E Hbad.
    apply check_import_not_ok; auto.
    unfold VerifySuperclaude.import_ok. apply andb_false_iff.
    destruct Hbad as [Hrc|Hok]; [left|right]; auto.
    now apply Z.eqb_neq.
  - intros name python_path wp s p w1 E.
    rewrite probe_spec, E. simpl.
    apply printed_since_app. reflexivity.
Qed.

(** C5, as the code has it.  The calls that probe a candidate are made
    without a [timeout]: those of [check_superclaude], and those of the
    other two scripts.  Only [run_test] of test-bridge-functionality.py,
    which runs the commands that follow the selection, makes its one call
    with a [timeout], of 5 seconds; when that call raises
    [TimeoutExpired] the script prints the timed-out line and goes on
    with the next command. *)
Theorem only_test_commands_are_timed :
  (forall python_path env_name (s : State VerifySuperclaude.Line),
      Forall (fun c => timeout (fst c) = None)
             (calls_since s
                (snd (VerifySuperclaude.check_superclaude
                        python_path env_name s))))
  /\ (forall python_path,
        timeout (TestSimpleFix.import_check python_path) = None
        /\ timeout (TestBridgeFunctionality.import_call python_path)
           = None)
  /\ (forall test_name cmd (s : State TestBridgeFunctionality.Line),
        exists o,
          calls_since s
            (snd (TestBridgeFunctionality.run_test test_name cmd s))
          = [(TestBridgeFunctionality.test_call cmd, o)]
          /\ timeout (TestBridgeFunctionality.test_call cmd) = Some 5%N)
  /\ (forall test_name cmd rest (s : State TestBridgeFunctionality.Line)
             msg w1,
        subprocess_run (world s) (TestBridgeFunctionality.test_call cmd)
        = (Raises (TimeoutExpired msg), w1) ->
        let s1 :=
          mkState w1
            (console s
             ++ [TestBridgeFunctionality.testing test_name;
                 TestBridgeFunctionality.command
                   (TestBridgeFunctionality.join_space cmd);
                 TestBridgeFunctionality.timed_out])
            (calls s
             ++ [(TestBridgeFunctionality.test_call cmd,
                  Raises (TimeoutExpired msg))]) in
        TestBridgeFunctionality.run_test test_name cmd s
        = (Returned tt, s1)
        /\ TestBridgeFunctionality.run_tests ((test_name, cmd) :: rest) s
           = TestBridgeFunctionality.run_tests rest s1).
Proof.
  split; [|split; [|split]].
  - intros python_path env_name s.
    destruct (subprocess_run (world s)
                (VerifySuperclaude.import_check python_path))
      as [[p|e] w1] eqn:E.
    + destruct (VerifySuperclaude.import_ok p) eqn:Hok.
      * destruct (subprocess_run w1
                    (VerifySuperclaude.details_call python_path))
          as [[d|e] w2] eqn:E2.
        -- erewrite check_details_return; eauto.
           erewrite calls_since_app by reflexivity.
           repeat constructor.
        -- erewrite check_details_raise; eauto.
           erewrite calls_since_app by reflexivity.
           repeat constructor.
      * erewrite check_import_not_ok; eauto.
        erewrite calls_since_app by reflexivity.
        repeat constructor.
    + erewrite check_first_call_raises; eauto.
      erewrite calls_since_app by reflexivity.
      repeat constructor.
  - intros python_path. split; reflexivity.
  - intros test_name cmd s. rewrite run_test_spec.
    destruct (subprocess_run (world s)
                (TestBridgeFunctionality.test_call cmd)) as [o w1].
    exists o. split; [|reflexivity].
    apply calls_since_app. reflexivity.
  - intros test_name cmd rest s msg w1 E s1.
    assert (Hrun : TestBridgeFunctionality.run_test test_name cmd s
                   = (Returned tt, s1)).
    { rewrite run_test_spec, E. reflexivity. }
    split; [exact Hrun|].
    simpl. unfold bind at 1. rewrite Hrun. reflexivity.
Qed.
End CandidateClaims.

(** C3, as stated, fails: the error text [check_superclaude] prints is not
    cut to any bounded length.  Whatever the bound, a child that exits with
    status 1 and writes one more character than that to its standard error
    gets all of them printed. *)
Lemma check_superclaude_diagnostic_unbounded :
  ~ (exists bound : nat,
        forall err t : str,
          In (VerifySuperclaude.error_text t)
             (console
                (snd (VerifySuperclaude.check_superclaude (os := scripted)
                        (lit "python3") (lit "System Python")
                        (start (os := scripted)
                           [Completes (mkCompleted 1 [] err)])))) ->
          length t <= bound).
Proof.
  intros [bound H].
  specialize (H (repeat 120%N (S bound)) (repeat 120%N (S bound))).
  rewrite repeat_length in H. enough (S bound <= bound) by lia.
  apply H.
  erewrite (check_import_not_ok (os := scripted)); [| reflexivity..].
  unfold VerifySuperclaude.failure_lines.
  cbn [stderr console snd nonempty repeat start app].
  change (120%N :: repeat 120%N bound) with (repeat 120%N (S bound)).
  rewrite (strip_repeat 120%N (S bound)) by reflexivity.
  right. left. reflexivity.
Qed.

(** C5, as stated, fails: the call [check_superclaude] makes to probe a
    candidate carries no [timeout]. *)
Lemma check_superclaude_call_has_no_timeout :
  map (fun c => timeout (fst c))
      (calls
         (snd (VerifySuperclaude.check_superclaude (os := machine)
                 (lit "python3") (lit "System Python")
                 (start (os := machine) 0))))
  = [None].
Proof. reflexivity. Qed.

(** ** The scripts on the machine *)

(** verify-superclaude.py finds SuperClaude in one of its four
    environments. *)
Example verify_on_the_machine :
  fst (VerifySuperclaude.verify (os := machine)
         (VerifySuperclaude.environments srv_app) (start (os := machine) 0))
  = Returned 1.
Proof. reflexivity. Qed.

(** test-simple-fix.py selects the interpreter of the virtual
    environment. *)
Example detect_on_the_machine :
  fst (TestSimpleFix.detect (os := machine)
         (TestSimpleFix.python_paths None srv_app) (start (os := machine) 0))
  = Returned (Some venv_python).
Proof. reflexivity. Qed.

(** test-bridge-functionality.py, started in another directory and without
    [SUPERCLAUDE_PYTHON], finds no interpreter and leaves with status 1. *)
Example command_execution_on_the_machine :
  TestBridgeFunctionality.command_execution (os := machine)
    (TestBridgeFunctionality.candidates None) (start (os := machine) 0)
  = (Raised (SystemExit 1),
     mkState (os := machine) 2 [TestBridgeFunctionality.no_python]
       [ (TestBridgeFunctionality.import_call (lit "python3"),
          fst (machine_run 0
                 (TestBridgeFunctionality.import_call (lit "python3"))));
         (TestBridgeFunctionality.import_call (lit "./venv/bin/python"),
          Raises (FileNotFoundError (lit "./venv/bin/python"))) ]).
Proof. reflexivity. Qed.


(** C1 on the machine: the variable is not set, [python3] has no
    SuperClaude, the interpreter of the virtual environment has it and comes
    once more after itself; the candidate at index 2 is selected. *)
Lemma first_success_is_selected_witness :
  fst (TestSimpleFix.detect (os := machine)
         (TestSimpleFix.python_paths None srv_app
          ++ [(lit "Again", Some venv_python)])
         (start (os := machine) 0))
  = Returned (Some venv_python)
  /\ fst (TestBridgeFunctionality.find_python (os := machine)
            (TestBridgeFunctionality.candidates (Some venv_python)
             ++ [venv_python])
            (start (os := machine) 0))
     = Returned (Some venv_python).
Proof.
  split.
  - apply (proj1 (@first_success_is_selected machine)
                 (TestSimpleFix.python_paths None srv_app
                  ++ [(lit "Again", Some venv_python)])
                 2 (lit "Venv python", Some venv_python)).
    + reflexivity.
    + reflexivity.
    + intros j Hj. destruct j as [|[|j]]; [reflexivity|reflexivity|lia].
  - apply (proj2 (@first_success_is_selected machine)
                 (TestBridgeFunctionality.candidates (Some venv_python)
                  ++ [venv_python])
                 2 venv_python).
    + reflexivity.
    + reflexivity.
    + intros j Hj. destruct j as [|[|j]]; [reflexivity|reflexivity|lia].
Defined.

(** C9 on the machine, whose world changes with every call while what a
    program does stays the same. *)
Lemma selection_is_idempotent_witness :
  fst (TestSimpleFix.detect (os := machine)
         (TestSimpleFix.python_paths None srv_app)
         (snd (TestSimpleFix.detect (os := machine)
                 (TestSimpleFix.python_paths None srv_app)
                 (start (os := machine) 0))))
  = fst (TestSimpleFix.detect (os := machine)
           (TestSimpleFix.python_paths None srv_app)
           (start (os := machine) 0))
  /\ fst (TestBridgeFunctionality.find_python (os := machine)
            (TestBridgeFunctionality.candidates (Some venv_python))
            (snd (TestBridgeFunctionality.find_python (os := machine)
                    (TestBridgeFunctionality.candidates (Some venv_python))
                    (start (os := machine) 0))))
     = fst (TestBridgeFunctionality.find_python (os := machine)
              (TestBridgeFunctionality.candidates (Some venv_python))
              (start (os := machine) 0))
  /\ fst (VerifySuperclaude.check_superclaude (os := machine)
            venv_python (lit "Project venv")
            (snd (VerifySuperclaude.check_superclaude (os := machine)
                    venv_python (lit "Project venv")
                    (start (os := machine) 0))))
     = fst (VerifySuperclaude.check_superclaude (os := machine)
              venv_python (lit "Project venv")
              (start (os := machine) 0)).
Proof.
  split; [|split].
  - apply (proj1 (@selection_is_idempotent machine)).
    intros c Hin w w'. simpl in Hin.
    destruct Hin as [<-|[<-|[<-|[]]]]; reflexivity.
  - apply (proj1 (proj2 (@selection_is_idempotent machine))).
    intros py Hin w w'. simpl in Hin.
    destruct Hin as [<-|[<-|[<-|[]]]]; reflexivity.
  - apply (proj2 (proj2 (@selection_is_idempotent machine))).
    intros w w'. reflexivity.
Defined.

(** C10 on the machine: [SUPERCLAUDE_PYTHON] is not set. *)
Lemma unset_candidate_is_skipped_witness :
  fst (TestSimpleFix.detect_loop (os := machine)
         (TestSimpleFix.python_paths None srv_app) None
         (start (os := machine) 0))
  = fst (TestSimpleFix.detect_loop (os := machine)
           (tl (TestSimpleFix.python_paths None srv_app)) None
           (start (os := machine) 0))
  /\ TestBridgeFunctionality.find_python (os := machine)
       (TestBridgeFunctionality.candidates None)
       (start (os := machine) 0)
     = TestBridgeFunctionality.find_python (os := machine)
         [lit "python3"; lit "./venv/bin/python"]
         (start (os := machine) 0).
Proof.
  split.
  - apply (proj1 (proj2 (@unset_candidate_is_skipped machine))
                 [] (lit "SUPERCLAUDE_PYTHON") None
                 (tl (TestSimpleFix.python_paths None srv_app))
                 (start (os := machine) 0)).
    reflexivity.
  - apply (proj2 (proj2 (@unset_candidate_is_skipped machine))
                 [lit "python3"; lit "./venv/bin/python"] [] []
                 (start (os := machine) 0)).
    reflexivity.
Defined.

(** C3, as the code has it, on two worlds: the import check passes and the
    details come back; the child exits with status 1 and an error text. *)
Lemma check_superclaude_verdict_and_diagnostic_witness :
  fst (VerifySuperclaude.check_superclaude (os := machine)
         venv_python (lit "Project venv") (start (os := machine) 0))
  = Returned true
  /\ VerifySuperclaude.check_superclaude (os := scripted)
       (lit "python3") (lit "System Python")
       (start (os := scripted)
          [Completes (mkCompleted 1 [] (lit " No module " ++ [10%N]))])
     = (Returned false,
        mkState (os := scripted) []
          [ VerifySuperclaude.not_found (lit "System Python");
            VerifySuperclaude.error_text (lit "No module") ]
          [ (VerifySuperclaude.import_check (lit "python3"),
             Completes (mkCompleted 1 [] (lit " No module " ++ [10%N]))) ]).
Proof.
  split.
  - apply (proj1 (proj2 (@check_superclaude_verdict_and_diagnostic machine))
                 venv_python (lit "Project venv") (start (os := machine) 0)
                 (mkCompleted 0 (lit "OK" ++ [10%N]) []) 1
                 (mkCompleted 0 (lit "OK" ++ [10%N]) []) 2);
      reflexivity.
  - apply (proj1 (proj2 (proj2
                   (@check_superclaude_verdict_and_diagnostic scripted)))
                 (lit "python3") (lit "System Python")
                 (start (os := scripted)
                    [Completes
                       (mkCompleted 1 [] (lit " No module " ++ [10%N]))])
                 (mkCompleted 1 [] (lit " No module " ++ [10%N])) []).
    + reflexivity.
    + left. discriminate.
Defined.

(** C5, as the code has it, on a world in which the command does not
    finish within its 5 seconds. *)
Lemma only_test_commands_are_timed_witness :
  TestBridgeFunctionality.run_test (os := scripted)
    (lit "Version check") [lit "python3"; lit "--version"]
    (start (os := scripted) [Raises (TimeoutExpired (lit "timed out"))])
  = (Returned tt,
     mkState (os := scripted) []
       [ TestBridgeFunctionality.testing (lit "Version check");
         TestBridgeFunctionality.command (lit "python3 --version");
         TestBridgeFunctionality.timed_out ]
       [ (TestBridgeFunctionality.test_call
            [lit "python3"; lit "--version"],
          Raises (TimeoutExpired (lit "timed out"))) ]).
Proof.
  apply (proj2 (proj2 (proj2 (@only_test_commands_are_timed scripted)))
               (lit "Version check") [lit "python3"; lit "--version"] []
               (start (os := scripted)
                  [Raises (TimeoutExpired (lit "timed out"))])
               (lit "timed out") []).
  reflexivity.
Defined.

(** * More of the scripts *)

(** ** verify-superclaude.py *)

Section VerifyMore.
Import VerifySuperclaude.
Context {os : OS}.

(** [check_superclaude] makes one call or two: the import check, and after
    it the call for the details, which is made exactly when the import check
    returned and passed. *)
Theorem check_superclaude_calls python_path env_name (s : State Line) :
  let s' := snd (check_superclaude python_path env_name s) in
  (exists o,
      calls_since s s' = [(import_check python_path, o)]
      /\ match o with
         | Completes p => import_ok p = false
         | Raises _ => True
         end)
  \/ (exists p o,
         import_ok p = true
         /\ calls_since s s'
            = [(import_check python_path, Completes p);
               (details_call python_path, o)]).
Proof.
  simpl.
  destruct (subprocess_run (world s) (import_check python_path))
    as [[p|e] w1] eqn:E.
  - destruct (import_ok p) eqn:Hok.
    + right.
      destruct (subprocess_run w1 (details_call python_path))
        as [[d|e] w2] eqn:E2.
      * erewrite check_details_return; eauto.
        exists p, (Completes d). split; auto.
        apply calls_since_app. reflexivity.
      * erewrite check_details_raise; eauto.
        exists p, (Raises e). split; auto.
        apply calls_since_app. reflexivity.
    + left. erewrite check_import_not_ok; eauto.
      exists (Completes p). split; auto.
      apply calls_since_app. reflexivity.
  - left. erewrite check_first_call_raises; eauto.
    exists (Raises e). split; auto.
    apply calls_since_app. reflexivity.
Qed.

(** When the import check raises an exception that is not
    [FileNotFoundError], [check_superclaude] prints the error line with the
    message of the exception, makes no second call, and returns [False]. *)
Theorem check_superclaude_other_exception
        python_path env_name (s : State Line) e w1 :
  subprocess_run (world s) (import_check python_path) = (Raises e, w1) ->
  (forall msg, e <> FileNotFoundError msg) ->
  check_superclaude python_path env_name s
  = (Returned false,
     mkState w1 (console s ++ [error_exc env_name (exn_str e)])
             (calls s ++ [(import_check python_path, Raises e)])).
Proof.
  intros E Hnot. rewrite (check_first_call_raises _ _ _ E).
  destruct e; try reflexivity. destruct (Hnot msg eq_refl).
Qed.

(** When the import check passes and the call for the details returns,
    [check_superclaude] returns [True] whatever the exit status of that
    second call; it prints the details, stripped, only if the status is
    zero. *)
Theorem check_superclaude_details_by_status
        python_path env_name (s : State Line) p w1 d w2 :
  subprocess_run (world s) (import_check python_path) = (Completes p, w1) ->
  returncode p = 0%Z ->
  contains (lit "OK") (stdout p) = true ->
  subprocess_run w1 (details_call python_path) = (Completes d, w2) ->
  check_superclaude python_path env_name s
  = (Returned true,
     mkState w2
       (console s
        ++ found env_name
           :: (if (returncode d =? 0)%Z
               then [details_out (strip (stdout d))]
               else []))
       (calls s ++ [(import_check python_path, Completes p);
                    (details_call python_path, Completes d)])).
Proof.
  intros E Hrc Hok E2.
  apply (check_details_return _ _ _ E); auto.
  unfold import_ok. rewrite Hrc, Hok. reflexivity.
Qed.

Lemma check_superclaude_call_count python_path env_name (s : State Line) :
  exists ok lines cs w',
    check_superclaude python_path env_name s
    = (Returned ok, mkState w' (console s ++ lines) (calls s ++ cs))
    /\ 1 <= length cs <= 2.
Proof.
  destruct (subprocess_run (world s) (import_check python_path))
    as [[p|e] w1] eqn:E.
  - destruct (import_ok p) eqn:Hok.
    + destruct (subprocess_run w1 (details_call python_path))
        as [[d|e] w2] eqn:E2.
      * eexists _, _, _, _. split.
        { eapply check_details_return; eauto. }
        simpl. lia.
      * eexists _, _, _, _. split.
        { eapply check_details_raise; eauto. }
        simpl. lia.
    + eexists _, _, _, _. split.
      { eapply check_import_not_ok; eauto. }
      simpl. lia.
  - eexists _, _, _, _. split.
    { eapply check_first_call_raises; eauto. }
    simpl. lia.
Qed.

(** The loop over [n] environments makes at least [n] and at most [2 * n]
    calls of [subprocess.run]. *)
Theorem probe_loop_call_bounds envs found_count (s : State Line) :
  let s' := snd (probe_loop envs found_count s) in
  length envs <= length (calls_since s s') <= 2 * length envs.
Proof.
  simpl.
  enough (H : exists r out cs w',
             probe_loop envs found_count s
             = (r, mkState w' (console s ++ out) (calls s ++ cs))
             /\ length envs <= length cs <= 2 * length envs).
  { destruct H as (r & out & cs & w' & -> & Hlen).
    rewrite (calls_since_app s _ cs) by reflexivity. exact Hlen. }
  revert found_count s.
  induction envs as [|[env_name python_path] rest IH]; intros k s.
  - exists (Returned k), [], [], (world s). simpl. unfold ret.
    rewrite !app_nil_r. destruct s; simpl; split; auto.
  - destruct (check_superclaude_call_count python_path env_name s)
      as (ok & lines & cs1 & w1 & Hcheck & Hlen1).
    simpl probe_loop. unfold bind at 1. rewrite Hcheck.
    unfold bind at 1. unfold print at 1. simpl.
    match goal with
    | |- context [probe_loop rest ?k' ?s1] =>
        destruct (IH k' s1) as (r & out & cs2 & w2 & Hloop & Hlen2)
    end.
    simpl in Hloop. rewrite Hloop.
    exists r, (lines ++ blank :: out), (cs1 ++ cs2), w2. split.
    + f_equal. f_equal; rewrite <- !app_assoc; reflexivity.
    + rewrite length_app. simpl length. lia.
Qed.

(** When the verdict on each environment does not depend on the world, the
    loop adds to the count the number of environments whose interpreter
    passes. *)
Theorem probe_loop_counts_passing envs :
  (forall e, In e envs -> forall w w', verdict (snd e) w = verdict (snd e) w')
  -> forall found_count (s : State Line) w0,
    fst (probe_loop envs found_count s)
    = Returned (found_count
                + length (filter (fun e => verdict (snd e) w0) envs)).
Proof.
  induction envs as [|[env_name python_path] rest IH]; intros Hst k s w0.
  - simpl. rewrite Nat.add_0_r. reflexivity.
  - assert (Hv := check_superclaude_verdict python_path env_name s).
    destruct (check_superclaude_block python_path env_name s)
      as (ok & lines & cs & w1 & Hcheck & _).
    rewrite Hcheck in Hv. simpl in Hv. injection Hv as ->.
    simpl probe_loop. unfold bind at 1. rewrite Hcheck.
    unfold bind at 1. unfold print at 1. simpl fst.
    rewrite IH with (w0 := w0)
      by (intros e Hin; apply Hst; right; exact Hin).
    simpl filter.
    assert (Hw := Hst (env_name, python_path) (or_introl eq_refl)
                      (world s) w0).
    simpl in Hw. rewrite Hw.
    destruct (verdict python_path w0); simpl; f_equal; lia.
Qed.
End VerifyMore.

(** ** test-simple-fix.py *)

Section SimpleFixMore.
Import TestSimpleFix.
Context {os : OS}.

(** What the loop returns, prints and calls. *)
Lemma detect_loop_trace paths working_python (s : State Line) :
  exists lines cs w',
    detect_loop paths working_python s
    = (Returned (selection_after working_python lines),
       mkState w' (console s ++ lines) (calls s ++ cs))
    /\ map simple_line_name lines = map (fun c => Some (fst c)) paths
    /\ map fst cs = map import_check (simple_probed paths).
Proof.
  revert working_python s.
  induction paths as [|[name python_path] rest IH]; intros wp s.
  - exists [], [], (world s). unfold selection_after. simpl. unfold ret.
    rewrite !app_nil_r. destruct s, (truthy wp); auto.
  - assert (Hskip :
        truthy python_path = false ->
        exists lines cs w',
          detect_loop ((name, python_path) :: rest) wp s
          = (Returned (selection_after wp lines),
             mkState w' (console s ++ lines) (calls s ++ cs))
          /\ map simple_line_name lines
             = map (fun c => Some (fst c)) ((name, python_path) :: rest)
          /\ map fst cs
             = map import_check (simple_probed ((name, python_path) :: rest))).
    { intros Hno. rewrite detect_loop_skip by assumption.
      match goal with
      | |- context [detect_loop rest wp ?s1] =>
          destruct (IH wp s1) as (lines & cs & w' & Hloop & Hnames & Hcalls)
      end.
      simpl in Hloop. rewrite Hloop.
      exists (not_set name :: lines), cs, w'. split; [|split].
      - unfold selection_after. simpl.
        rewrite <- app_assoc. reflexivity.
      - simpl. rewrite Hnames. reflexivity.
      - rewrite Hcalls. destruct python_path as [[|ch p]|];
          try discriminate; reflexivity. }
    destruct python_path as [[|ch p]|]; try (apply Hskip; reflexivity).
    clear Hskip. simpl detect_loop. unfold bind at 1. rewrite probe_spec.
    destruct (subprocess_run (world s) (import_check (ch :: p)))
      as [o w1] eqn:E.
    match goal with
    | |- context [detect_loop rest ?wp1 ?s1] =>
        destruct (IH wp1 s1) as (lines & cs & w' & Hloop & Hnames & Hcalls)
    end.
    simpl in Hloop. rewrite Hloop.
    exists (outcome_line name (ch :: p) o :: lines),
           ((import_check (ch :: p), o) :: cs), w'.
    split; [|split].
    + rewrite <- !app_assoc. simpl. f_equal. f_equal.
      unfold selection_after, after_probe, outcome_line.
      destruct o as [r|e]; simpl.
      * destruct (returncode r =? 0)%Z; simpl; auto.
        destruct (truthy wp) eqn:Hwp; simpl; rewrite ?Hwp; auto.
      * reflexivity.
    + simpl. rewrite Hnames. f_equal.
      unfold outcome_line. destruct o as [r|e]; simpl; auto.
      destruct (returncode r =? 0)%Z; reflexivity.
    + simpl. rewrite Hcalls. reflexivity.
Qed.

(** The loop makes exactly one call per candidate that has a path, in the
    order of the list, also for the candidates that come after a
    success. *)
Theorem detect_loop_probes_every_path paths working_python (s : State Line) :
  map fst (calls_since s (snd (detect_loop paths working_python s)))
  = map import_check (simple_probed paths).
Proof.
  destruct (detect_loop_trace paths working_python s)
    as (lines & cs & w' & Hloop & _ & Hcalls).
  rewrite Hloop. simpl.
  rewrite (calls_since_app s _ cs) by reflexivity. exact Hcalls.
Qed.

(** The selection is the path shown in the first line that says found, and
    there is none when no line says so. *)
Theorem detect_selects_first_found paths (s : State Line) :
  fst (detect_loop paths None s)
  = Returned (simple_first_found
                (printed_since s (snd (detect_loop paths None s)))).
Proof.
  destruct (detect_loop_trace paths None s)
    as (lines & cs & w' & Hloop & _ & _).
  rewrite Hloop. simpl.
  rewrite (printed_since_app s _ lines) by reflexivity.
  unfold selection_after. simpl.
  destruct (simple_first_found lines); reflexivity.
Qed.

(** With [SUPERCLAUDE_PYTHON] set to a path whose import check exits with
    status zero, the script selects that path, whatever the other
    candidates do. *)
Theorem detect_prefers_the_variable python_path cwd (s : State Line) :
  nonempty python_path = true ->
  exit_zero (fst (subprocess_run (world s) (import_check python_path)))
  = true ->
  fst (detect (python_paths (Some python_path) cwd) s)
  = Returned (Some python_path).
Proof.
  intros Hne Hok. unfold detect, bind at 1.
  assert (H : fst (detect_loop (python_paths (Some python_path) cwd) None s)
              = Returned (Some python_path)).
  { apply detect_loop_first_success
      with (i := 0) (c := (lit "SUPERCLAUDE_PYTHON", Some python_path)).
    - reflexivity.
    - unfold succeeds_at, state_at, succeeds. simpl.
      rewrite Hne, Hok. reflexivity.
    - intros j Hj. lia. }
  destruct (detect_loop (python_paths (Some python_path) cwd) None s)
    as [[r|e] s1]; simpl in H; [|discriminate].
  injection H as ->. reflexivity.
Qed.
End SimpleFixMore.

(** ** test-bridge-functionality.py: interpreter and test commands *)

Section BridgeMore.
Import TestBridgeFunctionality.
Context {os : OS}.

Lemma turn_spec py (s : State Line) :
  turn s py
  = if nonempty py
    then mkState (snd (subprocess_run (world s) (import_call py)))
                 (console s)
                 (calls s
                  ++ [(import_call py,
                       fst (subprocess_run (world s) (import_call py)))])
    else s.
Proof.
  unfold turn. destruct py as [|ch p]; [reflexivity|].
  simpl. unfold bind. rewrite bridge_probe_spec.
  destruct (subprocess_run (world s) (import_call (ch :: p))) as [o w1].
  simpl. destruct (exit_zero o); reflexivity.
Qed.

(** What the loop returns and calls; it prints nothing. *)
Lemma find_python_trace pys (s : State Line) :
  exists r cs w',
    find_python pys s
    = (Returned r, mkState w' (console s) (calls s ++ cs))
    /\ match r with
       | None =>
           map fst cs = map import_call (filter nonempty pys)
           /\ forallb failed cs = true
       | Some py =>
           exists pre post before o,
             pys = pre ++ py :: post
             /\ nonempty py = true
             /\ exit_zero o = true
             /\ cs = before ++ [(import_call py, o)]
             /\ map fst before = map import_call (filter nonempty pre)
             /\ forallb failed before = true
       end.
Proof.
  revert s. induction pys as [|py rest IH]; intros s.
  - exists None, [], (world s). simpl. unfold ret.
    rewrite app_nil_r. destruct s; auto.
  - rewrite find_python_step, turn_spec. unfold succeeds.
    destruct (nonempty py) eqn:Hne; simpl.
    + destruct (subprocess_run (world s) (import_call py)) as [o w1].
      simpl. destruct (exit_zero o) eqn:Hok.
      * exists (Some py), [(import_call py, o)], w1. split; auto.
        exists [], rest, [], o. simpl. repeat split; auto.
      * match goal with
        | |- context [find_python rest ?s1] =>
            destruct (IH s1) as (r & cs & w' & Hloop & Hr)
        end.
        simpl in Hloop. rewrite Hloop.
        exists r, ((import_call py, o) :: cs), w'. split.
        { rewrite <- app_assoc. reflexivity. }
        destruct r as [py'|].
        -- destruct Hr as (pre & post & before & o' & -> & Hne' & Hok'
                           & -> & Hmap & Hfail).
           exists (py :: pre), post, ((import_call py, o) :: before), o'.
           simpl. rewrite Hne, Hmap. unfold failed at 1. simpl.
           rewrite Hok, Hfail. repeat split; auto.
        -- destruct Hr as [Hmap Hfail]. simpl. rewrite Hne, Hmap.
           unfold failed at 1. simpl. rewrite Hok, Hfail. auto.
    + destruct (IH s) as (r & cs & w' & Hloop & Hr).
      rewrite Hloop. exists r, cs, w'. split; auto.
      destruct r as [py'|].
      * destruct Hr as (pre & post & before & o' & -> & Hne' & Hok'
                        & -> & Hmap & Hfail).
        exists (py :: pre), post, before, o'. simpl. rewrite Hne.
        repeat split; auto.
      * simpl. rewrite Hne. exact Hr.
Qed.

(** When the loop selects nothing, it has made exactly one call for each
    candidate that is not empty, in the order of the list, and none of these
    ended with exit status zero; and it has printed nothing. *)
Theorem find_python_none pys (s : State Line) s' :
  find_python pys s = (Returned None, s') ->
  console s' = console s
  /\ map fst (calls_since s s') = map import_call (filter nonempty pys)
  /\ forallb failed (calls_since s s') = true.
Proof.
  intros H.
  destruct (find_python_trace pys s) as (r & cs & w' & Hloop & Hr).
  rewrite Hloop in H. injection H as -> <-. simpl.
  rewrite (calls_since_app s _ cs) by reflexivity. auto.
Qed.

(** When the loop selects [py], [py] is a candidate of the list and is not
    empty, the last call made is its import, which ended with exit status
    zero, the calls before it are those of the candidates before it, which
    all failed, and nothing was printed: no candidate after [py] is
    tried. *)
Theorem find_python_some pys (s : State Line) py s' :
  find_python pys s = (Returned (Some py), s') ->
  console s' = console s
  /\ exists pre post before o,
      pys = pre ++ py :: post
      /\ nonempty py = true
      /\ exit_zero o = true
      /\ calls_since s s' = before ++ [(import_call py, o)]
      /\ map fst before = map import_call (filter nonempty pre)
      /\ forallb failed before = true.
Proof.
  intros H.
  destruct (find_python_trace pys s) as (r & cs & w' & Hloop & Hr).
  rewrite Hloop in H. injection H as -> <-. simpl. split; auto.
  destruct Hr as (pre & post & before & o & Hpys & Hne & Hok & Hcs & Hrest).
  exists pre, post, before, o.
  rewrite (calls_since_app s _ cs) by reflexivity.
  destruct Hrest as (Hmap & Hfail). repeat split; auto.
Qed.

(** Once a list of candidates gives a selection, candidates added after it
    change nothing: the result and the state are the same. *)
Theorem find_python_stops pre post (s : State Line) py :
  fst (find_python pre s) = Returned (Some py) ->
  find_python (pre ++ post) s = find_python pre s.
Proof.
  revert s. induction pre as [|py0 pre IH]; intros s H.
  - discriminate.
  - simpl app. rewrite !find_python_step in *.
    destruct (succeeds py0 (world s)); [reflexivity|]. apply IH. exact H.
Qed.

(** The script tries [python3] first: when its import ends with exit status
    zero, [python3] is selected after that single call, whatever
    [SUPERCLAUDE_PYTHON] is set to. *)
Theorem find_python_prefers_python3 superclaude_python (s : State Line) :
  exit_zero (fst (subprocess_run (world s) (import_call (lit "python3"))))
  = true ->
  find_python (candidates superclaude_python) s
  = (Returned (Some (lit "python3")),
     mkState (snd (subprocess_run (world s) (import_call (lit "python3"))))
             (console s)
             (calls s
              ++ [(import_call (lit "python3"),
                   fst (subprocess_run (world s)
                          (import_call (lit "python3"))))])).
Proof.
  intros Hok. unfold candidates. rewrite find_python_step, turn_spec.
  unfold succeeds. rewrite Hok. reflexivity.
Qed.
Lemma test_lines_previews o : forallb bridge_preview_ok (test_lines o) = true.
Proof.
  assert (Hcut : forall n (t : str), (length (firstn n t) <=? n) = true).
  { intros n t. apply Nat.leb_le. rewrite length_firstn.
    apply Nat.le_min_l. }
  unfold test_lines. destruct o as [p|e].
  - destruct (returncode p =? 0)%Z;
      [destruct (nonempty (stdout p))|destruct (nonempty (stderr p))];
      cbn [forallb bridge_preview_ok andb]; rewrite ?Hcut; reflexivity.
  - destruct e; reflexivity.
Qed.

Lemma test_lines_names o rest :
  bridge_test_names (test_lines o ++ rest) = bridge_test_names rest.
Proof.
  unfold test_lines. destruct o as [p|e].
  - destruct (returncode p =? 0)%Z;
      [destruct (nonempty (stdout p))|destruct (nonempty (stderr p))];
      reflexivity.
  - destruct e; reflexivity.
Qed.

(** What the loop over the test commands returns, prints and calls. *)
Lemma run_tests_trace tests (s : State Line) :
  exists lines cs w',
    run_tests tests s
    = (Returned tt, mkState w' (console s ++ lines) (calls s ++ cs))
    /\ bridge_test_names lines = map fst tests
    /\ map fst cs = map (fun t => test_call (snd t)) tests
    /\ forallb bridge_preview_ok lines = true.
Proof.
  revert s. induction tests as [|[test_name cmd] rest IH]; intros s.
  - exists [], [], (world s). simpl. unfold ret.
    rewrite !app_nil_r. destruct s; auto.
  - simpl run_tests. unfold bind at 1. rewrite run_test_spec.
    destruct (subprocess_run (world s) (test_call cmd)) as [o w1].
    match goal with
    | |- context [run_tests rest ?s1] =>
        destruct (IH s1) as (lines & cs & w' & Hloop & Hnames & Hcalls & Hpre)
    end.
    simpl in Hloop. rewrite Hloop.
    exists (testing test_name :: command (join_space cmd)
            :: test_lines o ++ lines),
           ((test_call cmd, o) :: cs), w'.
    split; [|split; [|split]].
    + rewrite <- !app_assoc. reflexivity.
    + cbn [bridge_test_names bridge_test_name map fst].
      rewrite test_lines_names, Hnames. reflexivity.
    + simpl. rewrite Hcalls. reflexivity.
    + cbn [forallb bridge_preview_ok andb].
      rewrite forallb_app, test_lines_previews, Hpre. reflexivity.
Qed.

(** What the test commands print of the output of a child is cut: no
    output preview is longer than 100 characters and no error preview
    longer than 200. *)
Theorem run_tests_previews_bounded tests (s : State Line) :
  forallb bridge_preview_ok
          (printed_since s (snd (run_tests tests s))) = true.
Proof.
  destruct (run_tests_trace tests s)
    as (lines & cs & w' & Hloop & _ & _ & Hpre).
  rewrite Hloop. simpl.
  rewrite (printed_since_app s _ lines) by reflexivity. exact Hpre.
Qed.

End BridgeMore.

(** ** test-bridge-functionality.py: the MCP configuration *)

Section McpMore.
Import McpStatus.
Context {os : OS}.
Variable read_config : str -> FileState.

(** What the [with] block returns and prints for a loaded configuration,
    whichever of its look-ups raises. *)
Lemma inspect_spec config_path config (s : State Line) :
  try_except (inspect config_path config) (fun _ => ret false) s
  = (Returned (configures (Content config)),
     mkState (world s)
             (console s ++ lines_for config_path (Content config))
             (calls s)).
Proof.
  assert (Hnil : mkState (world s) (console s ++ []) (calls s) = s).
  { rewrite app_nil_r. destruct s; reflexivity. }
  unfold inspect, configures, lines_for, server_entry, announced,
    entry_passes, entry_python.
  destruct config as [items|items|t|t]; script_unfold;
    try (rewrite Hnil; reflexivity).
  - destruct (lookup (lit "mcpServers") items) as [servers|]; simpl;
      [|rewrite Hnil; reflexivity].
    destruct servers as [servers|servers|servers|servers]; simpl;
      try (rewrite Hnil; reflexivity).
    + destruct (lookup (lit "superclaude-enterprise") servers)
        as [entry|]; simpl; [|rewrite Hnil; reflexivity].
      destruct entry as [entry|entry|entry|entry]; simpl;
        try reflexivity.
      * destruct (lookup (lit "env") entry) as [env|]; simpl;
          [|reflexivity].
        destruct env as [env|env|env|env]; simpl; try reflexivity.
        -- destruct (lookup (lit "SUPERCLAUDE_PYTHON") env); simpl;
             rewrite <- ?app_assoc; reflexivity.
        -- destruct (existsb (is_str (lit "SUPERCLAUDE_PYTHON")) env);
             reflexivity.
        -- destruct (contains (lit "SUPERCLAUDE_PYTHON") env); reflexivity.
      * destruct (existsb (is_str (lit "env")) entry); reflexivity.
      * destruct (contains (lit "env") entry); reflexivity.
    + destruct (existsb (is_str (lit "superclaude-enterprise")) servers);
        simpl; [reflexivity|rewrite Hnil; reflexivity].
    + destruct (contains (lit "superclaude-enterprise") servers);
        simpl; [reflexivity|rewrite Hnil; reflexivity].
  - destruct (existsb (is_str (lit "mcpServers")) items); simpl;
      rewrite Hnil; reflexivity.
  - destruct (contains (lit "mcpServers") t); simpl;
      rewrite Hnil; reflexivity.
Qed.

Lemma check_config_spec config_path (s : State Line) :
  check_config read_config config_path s
  = (Returned (configures (read_config config_path)),
     mkState (world s)
             (console s ++ lines_for config_path (read_config config_path))
             (calls s)).
Proof.
  unfold check_config.
  destruct (read_config config_path) as [| |config].
  1, 2: unfold ret; simpl; rewrite app_nil_r; destruct s; reflexivity.
  apply inspect_spec.
Qed.

Lemma config_loop_spec paths (s : State Line) :
  config_loop read_config paths s
  = (Returned (existsb (fun p => configures (read_config p)) paths),
     mkState (world s)
             (console s
              ++ flat_map (fun p => lines_for p (read_config p))
                          (examined read_config paths))
             (calls s)).
Proof.
  revert s. induction paths as [|config_path rest IH]; intros s.
  - simpl. unfold ret. rewrite app_nil_r. destruct s; reflexivity.
  - simpl. unfold bind. rewrite check_config_spec.
    destruct (configures (read_config config_path)); simpl.
    + unfold ret. rewrite app_nil_r. reflexivity.
    + rewrite IH. simpl. rewrite <- app_assoc. reflexivity.
Qed.

Lemma plain_entry_passes entry :
  plain_entry entry = true -> entry_passes entry = true.
Proof.
  destruct entry as [items| | |]; simpl; try discriminate.
  destruct (lookup (lit "env") items) as [[]|]; congruence.
Qed.

Lemma announced_entry config entry :
  server_entry config = Some entry -> announced config = true.
Proof.
  unfold server_entry, announced.
  destruct config as [items| | |]; try discriminate.
  destruct (lookup (lit "mcpServers") items) as [[servers| | |]|];
    try discriminate.
  intros ->. reflexivity.
Qed.

Lemma failing_entry_has_no_python entry :
  entry_passes entry = false -> entry_python entry = None.
Proof.
  destruct entry as [items| | |]; simpl; auto.
  destruct (lookup (lit "env") items) as [[]|]; congruence.
Qed.

(** The file at a path makes the script set [mcp_configured] exactly when
    it loads, the loaded value and its [mcpServers] are dictionaries, the
    latter has the key [superclaude-enterprise], and the entry under that
    key is one the script gets through. *)
Theorem check_config_true_iff config_path (s : State Line) :
  fst (check_config read_config config_path s) = Returned true
  <-> exists config entry,
        read_config config_path = Content config
        /\ server_entry config = Some entry
        /\ entry_passes entry = true.
Proof.
  rewrite check_config_spec. simpl. unfold configures. split.
  - intros H. injection H as H.
    destruct (read_config config_path) as [| |config]; try discriminate.
    destruct (server_entry config) as [entry|] eqn:He; [|discriminate].
    exists config, entry. auto.
  - intros (config & entry & -> & -> & ->). reflexivity.
Qed.

(** A configuration of the usual shape, in which the entry of the server is
    a dictionary without [env] or with a dictionary as [env], is recognised:
    the loop prints that the server is configured at that path, then the
    interpreter when [env] has [SUPERCLAUDE_PYTHON], and stops with [True]
    without looking at the paths that follow. *)
Theorem config_loop_recognises config_path rest (s : State Line)
        config entry :
  read_config config_path = Content config ->
  server_entry config = Some entry ->
  plain_entry entry = true ->
  config_loop read_config (config_path :: rest) s
  = (Returned true,
     mkState (world s)
             (console s
              ++ configured config_path
                 :: match entry_python entry with
                    | Some value => [python_path_configured value]
                    | None => []
                    end)
             (calls s)).
Proof.
  intros Hread Hentry Hplain. rewrite config_loop_spec. simpl.
  unfold configures, lines_for. rewrite Hread, Hentry.
  rewrite (plain_entry_passes _ Hplain), (announced_entry _ Hentry).
  simpl. rewrite app_nil_r. reflexivity.
Qed.

(** A file that announces the server without configuring it: the script
    prints that the server is configured at the path, does not set
    [mcp_configured], and, when no other path configures the server, prints
    the warning that it is not configured. *)
Theorem mcp_status_announced_not_configured config_path (s : State Line)
        config :
  read_config config_path = Content config ->
  announced config = true ->
  configures (Content config) = false ->
  mcp_status read_config [config_path] s
  = (Returned false,
     mkState (world s)
             (console s ++ [configured config_path; not_configured])
             (calls s)).
Proof.
  intros Hread Hann Hnot.
  unfold mcp_status, bind at 1. rewrite config_loop_spec. simpl.
  rewrite Hread, Hnot. simpl. rewrite Hann.
  unfold bind, print, ret. simpl. rewrite <- app_assoc. simpl.
  assert (Hpy : match server_entry config with
                | Some entry =>
                    match entry_python entry with
                    | Some value => [python_path_configured value]
                    | None => []
                    end
                | None => []
                end = []).
  { unfold configures in Hnot.
    destruct (server_entry config) as [entry|]; auto.
    rewrite (failing_entry_has_no_python _ Hnot). reflexivity. }
  rewrite Hpy. reflexivity.
Qed.

(** Once one of the paths configures the server, paths added after the list
    change nothing. *)
Theorem config_loop_stops pre post (s : State Line) :
  fst (config_loop read_config pre s) = Returned true ->
  config_loop read_config (pre ++ post) s = config_loop read_config pre s.
Proof.
  rewrite !config_loop_spec. simpl. intros H. injection H as H.
  rewrite existsb_app, H. simpl. f_equal. f_equal. f_equal. f_equal.
  clear s. induction pre as [|p pre IH]; [discriminate|].
  simpl in *. destruct (configures (read_config p)); [reflexivity|].
  simpl in H. rewrite IH by exact H. reflexivity.
Qed.
End McpMore.

(** ** Paths *)

Lemma dropwhile_stop {A} (p : A -> bool) l x r :
  forallb p l = true -> p x = false -> dropwhile p (l ++ x :: r) = x :: r.
Proof.
  intros Hl Hx. induction l as [|y l IH]; simpl in *.
  - now rewrite Hx.
  - apply andb_true_iff in Hl as [-> Hl]. auto.
Qed.

Lemma rstrip_sep_id (a : str) :
  endswith_sep a = false ->
  dropwhile (fun c => (c =? sep)%N) (rev a) = rev a.
Proof.
  unfold endswith_sep. destruct (rev a) as [|c l]; simpl; auto.
  now intros ->.
Qed.

Lemma endswith_sep_name (a name : str) :
  name <> [] ->
  forallb (fun c => negb (c =? sep)%N) name = true ->
  endswith_sep (a ++ name) = false.
Proof.
  intros Hne Hname. unfold endswith_sep. rewrite rev_app_distr.
  destruct (rev name) as [|c l] eqn:Hrev.
  - destruct name; [congruence|].
    apply (f_equal (@length N)) in Hrev. rewrite length_rev in Hrev.
    discriminate.
  - simpl. assert (Hin : In c name).
    { apply in_rev. rewrite Hrev. left. reflexivity. }
    rewrite forallb_forall in Hname. apply Hname in Hin.
    now apply negb_true_iff in Hin.
Qed.

(** [dirname] undoes the adding of a last component. *)
Lemma dirname_child (parent name : str) :
  endswith_sep parent = false ->
  forallb (fun c => negb (c =? sep)%N) name = true ->
  dirname (parent ++ sep :: name)
  = if nonempty parent then parent else [sep].
Proof.
  intros Hparent Hname. unfold dirname.
  rewrite rev_app_distr. simpl rev. rewrite <- app_assoc. simpl app.
  rewrite dropwhile_stop.
  - change (dropwhile (fun c => (c =? sep)%N) (sep :: rev parent))
      with (dropwhile (fun c => (c =? sep)%N) (rev parent)).
    rewrite rstrip_sep_id by assumption.
    destruct parent as [|c parent]; [reflexivity|].
    rewrite rev_involutive.
    destruct (rev (c :: parent)) as [|d l] eqn:Hrev; [|reflexivity].
    apply (f_equal (@length N)) in Hrev. rewrite length_rev in Hrev.
    discriminate.
  - rewrite forallb_forall in *. intros c Hin. apply Hname.
    now apply in_rev.
  - unfold sep. reflexivity.
Qed.

(** In a working directory [parent/name], the four environments that
    verify-superclaude.py probes are [python3], the [venv] and the [.venv]
    of the working directory, and the [venv] beside it, in [parent]. *)
Theorem environments_of_working_directory (parent name : str) :
  endswith_sep parent = false ->
  name <> [] ->
  forallb (fun c => negb (c =? sep)%N) name = true ->
  let cwd := parent ++ sep :: name in
  VerifySuperclaude.environments cwd
  = [ (lit "System Python", lit "python3");
      (lit "Project venv", cwd ++ lit "/venv/bin/python");
      (lit "Project .venv", cwd ++ lit "/.venv/bin/python");
      (lit "Parent venv", parent ++ lit "/venv/bin/python") ].
Proof.
  intros Hparent Hne Hname cwd. unfold VerifySuperclaude.environments.
  assert (Hcwd : endswith_sep cwd = false).
  { unfold cwd. change (parent ++ sep :: name)
      with (parent ++ [sep] ++ name).
    rewrite app_assoc. now apply endswith_sep_name. }
  assert (Hnonempty : nonempty cwd = true).
  { unfold cwd. destruct parent; reflexivity. }
  assert (Hjoin : forall b,
             startswith [sep] b = false ->
             path_join cwd b = cwd ++ sep :: b).
  { intros b Hb. unfold path_join. rewrite Hb, Hnonempty, Hcwd.
    reflexivity. }
  rewrite !Hjoin by reflexivity.
  unfold cwd at 3. rewrite (dirname_child parent name) by assumption.
  repeat f_equal.
  unfold path_join. simpl startswith. cbv iota.
  destruct parent as [|c parent]; [reflexivity|].
  cbn [nonempty negb orb]. rewrite Hparent. reflexivity.
Qed.

(** Where the home directory does not end with a separator, the check of
    the MCP configuration looks at [.claude.json] and
    [.config/claude/mcp.json] in it, and then at [.claude/settings.json]
    under the working directory. *)
Lemma mcp_config_paths_of_home (userhome : str) :
  endswith_sep userhome = false ->
  McpStatus.mcp_config_paths (Some userhome)
  = [ userhome ++ lit "/.claude.json";
      userhome ++ lit "/.config/claude/mcp.json";
      lit ".claude/settings.json" ].
Proof.
  intros H. unfold McpStatus.mcp_config_paths, McpStatus.expanduser.
  rewrite rstrip_sep_id by assumption. rewrite rev_involutive.
  reflexivity.
Qed.

(** ** More of the scripts, on the machine *)

Lemma check_superclaude_other_exception_witness :
  VerifySuperclaude.check_superclaude (os := scripted)
    (lit "/opt/python") (lit "Project venv")
    (start (os := scripted)
       [Raises (OtherException (lit "Permission denied"))])
  = (Returned false,
     mkState (os := scripted) []
       [ VerifySuperclaude.error_exc (lit "Project venv")
           (lit "Permission denied") ]
       [ (VerifySuperclaude.import_check (lit "/opt/python"),
          Raises (OtherException (lit "Permission denied"))) ]).
Proof.
  apply (@check_superclaude_other_exception scripted
           (lit "/opt/python") (lit "Project venv")
           (start (os := scripted)
              [Raises (OtherException (lit "Permission denied"))])
           (OtherException (lit "Permission denied")) []).
  - reflexivity.
  - intros msg H. discriminate H.
Defined.

Lemma check_superclaude_details_by_status_witness :
  VerifySuperclaude.check_superclaude (os := scripted)
    (lit "python3") (lit "System Python")
    (start (os := scripted)
       [ Completes (mkCompleted 0 (lit "OK" ++ [10%N]) []);
         Completes (mkCompleted 1 [] (lit "Traceback")) ])
  = (Returned true,
     mkState (os := scripted) []
       [ VerifySuperclaude.found (lit "System Python") ]
       [ (VerifySuperclaude.import_check (lit "python3"),
          Completes (mkCompleted 0 (lit "OK" ++ [10%N]) []));
         (VerifySuperclaude.details_call (lit "python3"),
          Completes (mkCompleted 1 [] (lit "Traceback"))) ]).
Proof.
  apply (@check_superclaude_details_by_status scripted
           (lit "python3") (lit "System Python")
           (start (os := scripted)
              [ Completes (mkCompleted 0 (lit "OK" ++ [10%N]) []);
                Completes (mkCompleted 1 [] (lit "Traceback")) ])
           (mkCompleted 0 (lit "OK" ++ [10%N]) [])
           [Completes (mkCompleted 1 [] (lit "Traceback"))]
           (mkCompleted 1 [] (lit "Traceback")) []);
    reflexivity.
Defined.

Lemma probe_loop_counts_passing_witness :
  fst (VerifySuperclaude.probe_loop (os := machine)
         (VerifySuperclaude.environments srv_app) 0
         (start (os := machine) 0))
  = Returned
      (0 + length
             (filter
                (fun e => VerifySuperclaude.verdict (os := machine)
                            (snd e) 7)
                (VerifySuperclaude.environments srv_app))).
Proof.
  apply (@probe_loop_counts_passing machine
           (VerifySuperclaude.environments srv_app)).
  intros e Hin w w'. simpl in Hin.
  destruct Hin as [<-|[<-|[<-|[<-|[]]]]]; reflexivity.
Defined.

Lemma detect_prefers_the_variable_witness :
  fst (TestSimpleFix.detect (os := machine)
         (TestSimpleFix.python_paths (Some venv_python) (lit "/tmp"))
         (start (os := machine) 0))
  = Returned (Some venv_python).
Proof.
  apply (@detect_prefers_the_variable machine venv_python (lit "/tmp")
           (start (os := machine) 0));
    reflexivity.
Defined.

Lemma find_python_none_witness :
  console
    (snd (TestBridgeFunctionality.find_python (os := machine)
            (TestBridgeFunctionality.candidates None)
            (start (os := machine) 0)))
  = []
  /\ map fst
       (calls_since (start (os := machine) 0)
          (snd (TestBridgeFunctionality.find_python (os := machine)
                  (TestBridgeFunctionality.candidates None)
                  (start (os := machine) 0))))
     = map TestBridgeFunctionality.import_call
           (filter nonempty (TestBridgeFunctionality.candidates None))
  /\ forallb failed
       (calls_since (start (os := machine) 0)
          (snd (TestBridgeFunctionality.find_python (os := machine)
                  (TestBridgeFunctionality.candidates None)
                  (start (os := machine) 0))))
     = true.
Proof.
  apply (@find_python_none machine
           (TestBridgeFunctionality.candidates None)
           (start (os := machine) 0)).
  reflexivity.
Defined.

Lemma find_python_some_witness :
  console
    (snd (TestBridgeFunctionality.find_python (os := machine)
            (TestBridgeFunctionality.candidates (Some venv_python))
            (start (os := machine) 0)))
  = [].
Proof.
  apply (@find_python_some machine
           (TestBridgeFunctionality.candidates (Some venv_python))
           (start (os := machine) 0) venv_python).
  reflexivity.
Defined.

Lemma find_python_stops_witness :
  TestBridgeFunctionality.find_python (os := machine)
    ([lit "python3"; venv_python] ++ [lit "/usr/bin/python3"])
    (start (os := machine) 0)
  = TestBridgeFunctionality.find_python (os := machine)
      [lit "python3"; venv_python] (start (os := machine) 0).
Proof.
  apply (@find_python_stops machine
           [lit "python3"; venv_python] [lit "/usr/bin/python3"]
           (start (os := machine) 0) venv_python).
  reflexivity.
Defined.

Lemma find_python_prefers_python3_witness :
  fst (TestBridgeFunctionality.find_python (os := scripted)
         (TestBridgeFunctionality.candidates (Some venv_python))
         (start (os := scripted) [Completes (mkCompleted 0 [] [])]))
  = Returned (Some (lit "python3")).
Proof.
  rewrite (@find_python_prefers_python3 scripted (Some venv_python)
             (start (os := scripted) [Completes (mkCompleted 0 [] [])]));
    reflexivity.
Defined.

Lemma config_loop_recognises_witness :
  fst (McpStatus.config_loop (os := machine) machine_files
         (McpStatus.mcp_config_paths (Some (lit "/home/dev")))
         (start (os := machine) 0))
  = Returned true.
Proof.
  exact (f_equal fst
           (@config_loop_recognises machine machine_files
              (lit "/home/dev/.claude.json")
              (tl (McpStatus.mcp_config_paths (Some (lit "/home/dev"))))
              (start (os := machine) 0) _ _ eq_refl eq_refl eq_refl)).
Defined.

Lemma mcp_status_announced_not_configured_witness :
  McpStatus.mcp_status (os := machine) machine_files
    [lit ".claude/settings.json"] (start (os := machine) 0)
  = (Returned false,
     mkState (os := machine) 0
       [ McpStatus.configured (lit ".claude/settings.json");
         McpStatus.not_configured ] []).
Proof.
  exact (@mcp_status_announced_not_configured machine machine_files
           (lit ".claude/settings.json") (start (os := machine) 0)
           _ eq_refl eq_refl eq_refl).
Defined.

Lemma config_loop_stops_witness :
  McpStatus.config_loop (os := machine) machine_files
    ([lit "/home/dev/.claude.json"] ++ [lit ".claude/settings.json"])
    (start (os := machine) 0)
  = McpStatus.config_loop (os := machine) machine_files
      [lit "/home/dev/.claude.json"] (start (os := machine) 0).
Proof.
  apply (@config_loop_stops machine machine_files
           [lit "/home/dev/.claude.json"] [lit ".claude/settings.json"]
           (start (os := machine) 0)).
  reflexivity.
Defined.

Lemma environments_of_working_directory_witness :
  VerifySuperclaude.environments srv_app
  = [ (lit "System Python", lit "python3");
      (lit "Project venv", lit "/srv/app/venv/bin/python");
      (lit "Project .venv", lit "/srv/app/.venv/bin/python");
      (lit "Parent venv", lit "/srv/venv/bin/python") ].
Proof.
  apply (@environments_of_working_directory (lit "/srv") (lit "app")).
  - reflexivity.
  - discriminate.
  - reflexivity.
Defined.

(** * The scripts on a host *)

Lemma shown_since_app {host : Host} {L} (s s' : HState L) out :
  hconsole s' = hconsole s ++ out -> shown_since s s' = out.
Proof. unfold shown_since. intros ->. apply skipn_length_app. Qed.

Lemma asked_since_app {host : Host} {L} (s s' : HState L) cs :
  hcalls s' = hcalls s ++ cs -> asked_since s s' = cs.
Proof. unfold asked_since. intros ->. apply skipn_length_app. Qed.

(** Unfolds a computation on the host down to its calls of the host. *)
Ltac io_unfold :=
  unfold bind_io, try_io, print_io, ret_io, throw_io, run_io in *;
  cbn beta iota zeta in *.

(** Splits on the outcome of the next operation of the host, on the class
    of an exception it raised, and on the tests of the script. *)
Ltac io_case :=
  match goal with
  | |- context [host_run ?w ?c] =>
      destruct (host_run w c) as [[?|?| |] ?] eqn:?;
      cbn [fst snd hworld hconsole hcalls] in *
  | |- context [host_write ?w ?t] =>
      destruct (host_write w t) as [[[]|?| |] ?] eqn:?;
      cbn [fst snd hworld hconsole hcalls] in *
  | |- context [match ?e with
                | FileNotFoundError _ => _
                | TimeoutExpired _ => _
                | OtherException _ => _
                end] =>
      destruct e; cbn [exn_str] in *
  | |- context [if ?b then _ else _] =>
      destruct b eqn:?; cbn [fst snd hworld hconsole hcalls] in *
  end.

(** Closes a goal about an ending that was reached: the equation is
    impossible, or it gives the final state. *)
Ltac io_ended :=
  let H := fresh in
  intros H; try discriminate H; inversion H; subst; clear H;
  cbn [hworld hconsole hcalls] in *; rewrite <- ?app_assoc.

(** ** verify-superclaude.py on a host: [check_superclaude] *)

Section VerifyOnHostFacts.
Import VerifySuperclaude.
Context {host : Host}.

(** Whenever [check_superclaude] returns, what it has printed is a block
    for its environment and verdict, whichever of its writes failed on the
    way. *)
Lemma hosted_check_block python_path env_name (s : HState Line) ok s' :
  VerifyOnHost.check_superclaude python_path env_name s = (Ends ok, s') ->
  exists lines,
    hconsole s' = hconsole s ++ lines /\ block_of env_name ok lines.
Proof.
  unfold VerifyOnHost.check_superclaude. io_unfold.
  repeat io_case; io_ended;
    (eexists; split; [reflexivity|]; unfold block_of; simpl; auto).
Qed.

(** Where every write succeeds and every child finishes,
    [check_superclaude] returns. *)
Lemma hosted_check_returns python_path env_name (s : HState Line) :
  writes_succeed host -> children_finish host ->
  exists ok s',
    VerifyOnHost.check_superclaude python_path env_name s = (Ends ok, s').
Proof.
  intros Hw Hr. unfold VerifyOnHost.check_superclaude. io_unfold.
  repeat io_case;
    try solve [eexists _, _; reflexivity];
    exfalso;
    repeat match goal with
      | E : host_write ?w ?t = _ |- _ =>
          let X := fresh in
          pose proof (Hw w t) as X; rewrite E in X; clear E;
          try discriminate X
      | E : host_run ?w ?c = _ |- _ =>
          let X := fresh in
          pose proof (Hr w c) as X; rewrite E in X; clear E;
          try exact X
      end.
Qed.

(** ** verify-superclaude.py on a host: the loop *)

Lemma hosted_loop_blocks envs found_count (s : HState Line) n s' :
  VerifyOnHost.probe_loop envs found_count s = (Ends n, s') ->
  exists out,
    hconsole s' = hconsole s ++ out
    /\ map block_env (blocks out) = map (fun e => Some (fst e)) envs
    /\ n = found_count + count_found (blocks out).
Proof.
  revert found_count s.
  induction envs as [|[env_name python_path] rest IH]; intros k s.
  - simpl. unfold ret_io. intros H. inversion H; subst.
    exists []. rewrite app_nil_r, Nat.add_0_r. auto.
  - simpl. unfold bind_io at 1.
    destruct (VerifyOnHost.check_superclaude python_path env_name s)
      as [[ok|x|] s1] eqn:Hcheck; try discriminate.
    apply hosted_check_block in Hcheck
      as (lines & Hlines & Henv & Hnb & Hfound & _).
    unfold bind_io at 1, print_io at 1.
    destruct (host_write (hworld s1) (render blank)) as [[[]|e| |] w2];
      try discriminate.
    intros Hloop. apply IH in Hloop as (out & Hout & Hmap & Hn).
    cbn [hconsole] in Hout.
    exists (lines ++ blank :: out). split; [|split].
    + rewrite Hout, Hlines, <- !app_assoc. reflexivity.
    + rewrite blocks_block by assumption. simpl.
      rewrite Henv, Hmap. reflexivity.
    + rewrite blocks_block by assumption. rewrite Hn.
      unfold count_found. simpl. rewrite Hfound.
      destruct ok; simpl; lia.
Qed.

Lemma hosted_loop_returns envs found_count (s : HState Line) :
  writes_succeed host -> children_finish host ->
  exists n s', VerifyOnHost.probe_loop envs found_count s = (Ends n, s').
Proof.
  intros Hw Hr. revert found_count s.
  induction envs as [|[env_name python_path] rest IH]; intros k s.
  - eexists _, _. reflexivity.
  - destruct (hosted_check_returns python_path env_name s Hw Hr)
      as (ok & s1 & Hcheck).
    simpl. unfold bind_io at 1. rewrite Hcheck.
    unfold bind_io at 1, print_io at 1.
    assert (Hb := Hw (hworld s1) (render blank)).
    destruct (host_write (hworld s1) (render blank)) as [o w2].
    simpl in Hb. subst o. apply IH.
Qed.

(** C2, as the code has it.  Whenever the loop of verify-superclaude.py
    over a candidate list returns, its output holds exactly one result
    block per candidate, in the order of the list, the i-th block reporting
    on the i-th environment, and the count it returns is the initial count
    plus the number of blocks that say found.  It does return where every
    write to the console succeeds and every call of [subprocess.run]
    returns or raises an [Exception]. *)
Theorem hosted_loop_one_result_per_candidate :
  (forall envs found_count (s : HState Line) n s',
      VerifyOnHost.probe_loop envs found_count s = (Ends n, s') ->
      length (blocks (shown_since s s')) = length envs
      /\ map block_env (blocks (shown_since s s'))
         = map (fun e => Some (fst e)) envs
      /\ n = found_count + count_found (blocks (shown_since s s')))
  /\ (writes_succeed host -> children_finish host ->
      forall envs found_count (s : HState Line),
      exists n s',
        VerifyOnHost.probe_loop envs found_count s = (Ends n, s')).
Proof.
  split.
  - intros envs k s n s' H.
    apply hosted_loop_blocks in H as (out & Hout & Hmap & Hn).
    rewrite (shown_since_app s s' out Hout).
    repeat split; auto.
    rewrite <- (length_map block_env), Hmap, length_map. reflexivity.
  - intros Hw Hr envs k s. now apply hosted_loop_returns.
Qed.

(** C7.  Whenever [check_superclaude] returns a verdict, whichever writes
    failed on the way: with [True] nothing it printed carries error text,
    and with [False] nothing it printed carries the resolved interpreter
    and module location. *)
Theorem hosted_check_result_invariant
        python_path env_name (s : HState Line) :
  match VerifyOnHost.check_superclaude python_path env_name s with
  | (Ends true, s') =>
      existsb is_diagnostic (shown_since s s') = false
  | (Ends false, s') =>
      existsb is_metadata (shown_since s s') = false
  | (Throws _, _) | (Hangs, _) => True
  end.
Proof.
  destruct (VerifyOnHost.check_superclaude python_path env_name s)
    as [[ok|x|] s'] eqn:Hcheck; auto.
  apply hosted_check_block in Hcheck as (lines & Hlines & _ & _ & _ & Hinv).
  rewrite (shown_since_app s s' lines Hlines).
  destruct ok; exact Hinv.
Qed.

(** C6, as the code has it.  Given an empty candidate list the loop probes
    nothing: it returns the count it was given, 0 in the script, in the
    state it started in; the script then writes the summary line for 0
    environments and returns 0. *)
Theorem hosted_verify_empty_list :
  (forall found_count (s : HState Line),
      VerifyOnHost.probe_loop [] found_count s = (Ends found_count, s))
  /\ (forall (s : HState Line) w',
        host_write (hworld s) (render (summary 0)) = (Finished tt, w') ->
        VerifyOnHost.verify [] s
        = (Ends 0, mkHState w' (hconsole s ++ [summary 0]) (hcalls s))).
Proof.
  split.
  - reflexivity.
  - intros s w' E. unfold VerifyOnHost.verify. simpl. io_unfold.
    rewrite E. reflexivity.
Qed.

(** Whenever verify-superclaude.py's loop and summary return, the count is
    at most the number of environments and the last line printed is the
    summary line with that count. *)
Theorem hosted_verify_count_and_summary envs (s : HState Line) n s' :
  VerifyOnHost.verify envs s = (Ends n, s') ->
  n <= length envs
  /\ exists before, shown_since s s' = before ++ [summary n].
Proof.
  unfold VerifyOnHost.verify, bind_io at 1.
  destruct (VerifyOnHost.probe_loop envs 0 s) as [[k|x|] s0] eqn:Hloop;
    try discriminate.
  apply hosted_loop_blocks in Hloop as (out & Hout & Hmap & Hk).
  unfold bind_io, print_io, ret_io.
  destruct (host_write (hworld s0) (render (summary k))) as [[[]|e| |] w2];
    try discriminate.
  intros H. inversion H; subst. split.
  - simpl. unfold count_found.
    etransitivity; [apply filter_length_le|].
    rewrite <- (length_map block_env), Hmap, length_map. reflexivity.
  - exists out. apply shown_since_app. simpl. rewrite Hout.
    rewrite <- app_assoc. reflexivity.
Qed.
End VerifyOnHostFacts.

Section MissingProgram.
Import VerifySuperclaude.
Context {host : Host} {os : OS}.

(** C4, as the code has it.  When the path of a candidate names no
    program, [subprocess.run] raises [FileNotFoundError] and no child runs:
    [check_superclaude] makes that one call and none after it, and writes
    the line that says Python was not found at the path.  If that write
    succeeds it returns [False] and the loop goes on, with the blank line
    and the next environment.  If that write raises, the exception leaves
    [check_superclaude].  When the call raises another exception, as for a
    file that is there but cannot be executed, the line is the error line
    with the message of the exception.  The loop of
    test-bridge-functionality.py prints nothing for a candidate whose call
    raises and goes on with the next one. *)
Theorem hosted_missing_program :
  (forall python_path env_name (s : HState Line) msg w1 w2,
      host_run (hworld s) (import_check python_path)
      = (Fails (FileNotFoundError msg), w1) ->
      host_write w1 (render (python_not_found env_name python_path))
      = (Finished tt, w2) ->
      let s2 :=
        mkHState w2
          (hconsole s ++ [python_not_found env_name python_path])
          (hcalls s
           ++ [(import_check python_path, Fails (FileNotFoundError msg))]) in
      VerifyOnHost.check_superclaude python_path env_name s
      = (Ends false, s2)
      /\ forall rest found_count,
          VerifyOnHost.probe_loop
            ((env_name, python_path) :: rest) found_count s
          = bind_io (print_io render blank)
                    (fun _ => VerifyOnHost.probe_loop rest found_count) s2)
  /\ (forall python_path env_name (s : HState Line) msg w1 e w2,
        host_run (hworld s) (import_check python_path)
        = (Fails (FileNotFoundError msg), w1) ->
        host_write w1 (render (python_not_found env_name python_path))
        = (Fails e, w2) ->
        VerifyOnHost.check_superclaude python_path env_name s
        = (Throws (Error (Exc e)),
           mkHState w2 (hconsole s)
             (hcalls s
              ++ [(import_check python_path,
                   Fails (FileNotFoundError msg))])))
  /\ (forall python_path env_name (s : HState Line) e w1 w2,
        host_run (hworld s) (import_check python_path) = (Fails e, w1) ->
        (forall msg, e <> FileNotFoundError msg) ->
        host_write w1 (render (error_exc env_name (exn_str e)))
        = (Finished tt, w2) ->
        VerifyOnHost.check_superclaude python_path env_name s
        = (Ends false,
           mkHState w2 (hconsole s ++ [error_exc env_name (exn_str e)])
             (hcalls s ++ [(import_check python_path, Fails e)])))
  /\ (forall env_name python_path,
        contains (lit "not found")
                 (render (python_not_found env_name python_path)) = true)
  /\ (forall py rest (s : State TestBridgeFunctionality.Line) e w1,
        nonempty py = true ->
        subprocess_run (world s) (TestBridgeFunctionality.import_call py)
        = (Raises e, w1) ->
        TestBridgeFunctionality.find_python (py :: rest) s
        = TestBridgeFunctionality.find_python rest
            (mkState w1 (console s)
               (calls s
                ++ [(TestBridgeFunctionality.import_call py, Raises e)]))).
Proof.
  split; [|split; [|split; [|split]]].
  - intros python_path env_name s msg w1 w2 Erun Ewrite s2.
    assert (Hcheck :
              VerifyOnHost.check_superclaude python_path env_name s
              = (Ends false, s2)).
    { unfold VerifyOnHost.check_superclaude. io_unfold.
      rewrite Erun. cbn [hworld]. rewrite Ewrite. reflexivity. }
    split; [exact Hcheck|].
    intros rest k. simpl. unfold bind_io at 1. rewrite Hcheck.
    reflexivity.
  - intros python_path env_name s msg w1 e w2 Erun Ewrite.
    unfold VerifyOnHost.check_superclaude. io_unfold.
    rewrite Erun. cbn [hworld]. rewrite Ewrite. reflexivity.
  - intros python_path env_name s e w1 w2 Erun Hnot Ewrite.
    unfold VerifyOnHost.check_superclaude. io_unfold.
    rewrite Erun.
    destruct e; try (destruct (Hnot msg eq_refl));
      cbn [hworld exn_str] in *; rewrite Ewrite; reflexivity.
  - intros env_name python_path. unfold render.
    change (lit ": Python not found at ")
      with (lit ": Python " ++ lit "not found" ++ lit " at ").
    rewrite !app_assoc.
    rewrite <- (app_assoc _ (lit "not found")).
    rewrite <- (app_assoc _ (lit "not found" ++ lit " at ")).
    rewrite <- (app_assoc (lit "not found")).
    apply contains_middle.
  - intros py rest s e w1 Hne E.
    rewrite find_python_step.
    unfold TestBridgeFunctionality.succeeds, TestBridgeFunctionality.turn.
    rewrite E, Hne. simpl.
    destruct py as [|ch p]; [discriminate|]. simpl.
    unfold bind. rewrite bridge_probe_spec, E. reflexivity.
Qed.
End MissingProgram.

(** C2, as stated, fails: on the machine whose console encodes ASCII only,
    the write of the first status line raises, the write of the error line
    in the handler raises again, and the exception leaves the loop over the
    four environments, which returns no report. *)
Lemma hosted_loop_raises_on_ascii_console :
  VerifyOnHost.probe_loop (host := ascii_machine)
    (VerifySuperclaude.environments srv_app) 0
    (hstart (host := ascii_machine) 0)
  = (Throws (Error (Exc encode_error)),
     mkHState (host := ascii_machine) 1 []
       [ (VerifySuperclaude.import_check (lit "python3"),
          fst (host_run (Host := ascii_machine) 0
                 (VerifySuperclaude.import_check (lit "python3")))) ])
  /\ ~ (exists n s',
          VerifyOnHost.probe_loop (host := ascii_machine)
            (VerifySuperclaude.environments srv_app) 0
            (hstart (host := ascii_machine) 0)
          = (Ends n, s')).
Proof.
  split; [reflexivity|]. intros (n & s' & H). discriminate H.
Qed.

(** C4, as stated, fails: on the machine whose console encodes ASCII only,
    for the [.venv] that is not there, the write of the not-found line
    raises in the handler and the exception leaves [check_superclaude];
    nothing is recorded for the candidate. *)
Lemma hosted_missing_program_raises_on_ascii_console :
  VerifyOnHost.check_superclaude (host := ascii_machine)
    (lit "/srv/app/.venv/bin/python") (lit "Project .venv")
    (hstart (host := ascii_machine) 0)
  = (Throws (Error (Exc encode_error)),
     mkHState (host := ascii_machine) 1 []
       [ (VerifySuperclaude.import_check (lit "/srv/app/.venv/bin/python"),
          Fails (FileNotFoundError (lit "/srv/app/.venv/bin/python"))) ]).
Proof. reflexivity. Qed.

(** ** The revised claims on the two hosts *)

Lemma hosted_machine_is_kind :
  writes_succeed (hosted machine) /\ children_finish (hosted machine).
Proof.
  split.
  - intros w text. reflexivity.
  - intros w c. simpl. unfold machine_run.
    destruct (argv c) as [|prog rest]; simpl; auto.
    destruct (str_eqb prog (lit "python3")); simpl; auto.
    destruct (str_eqb prog (lit "/srv/app/venv/bin/python")); simpl; auto.
Qed.

Lemma hosted_loop_one_result_per_candidate_witness :
  exists n s',
    VerifyOnHost.probe_loop (host := hosted machine)
      (VerifySuperclaude.environments srv_app) 0
      (hstart (host := hosted machine) 0)
    = (Ends n, s')
    /\ length
         (VerifySuperclaude.blocks
            (shown_since (hstart (host := hosted machine) 0) s'))
       = 4.
Proof.
  destruct (proj2 (@hosted_loop_one_result_per_candidate (hosted machine))
                  (proj1 hosted_machine_is_kind)
                  (proj2 hosted_machine_is_kind)
                  (VerifySuperclaude.environments srv_app) 0
                  (hstart (host := hosted machine) 0))
    as (n & s' & H).
  exists n, s'. split; [exact H|].
  exact (proj1 (proj1 (@hosted_loop_one_result_per_candidate
                         (hosted machine)) _ _ _ _ _ H)).
Defined.

Lemma hosted_verify_empty_list_witness :
  VerifyOnHost.verify (host := hosted machine) []
    (hstart (host := hosted machine) 0)
  = (Ends 0,
     mkHState (host := hosted machine) 0 [VerifySuperclaude.summary 0] []).
Proof.
  apply (proj2 (@hosted_verify_empty_list (hosted machine))
               (hstart (host := hosted machine) 0) 0).
  reflexivity.
Defined.

Lemma hosted_missing_program_witness :
  VerifyOnHost.check_superclaude (host := hosted machine)
    (lit "/srv/app/.venv/bin/python") (lit "Project .venv")
    (hstart (host := hosted machine) 0)
  = (Ends false,
     mkHState (host := hosted machine) 1
       [ VerifySuperclaude.python_not_found
           (lit "Project .venv") (lit "/srv/app/.venv/bin/python") ]
       [ (VerifySuperclaude.import_check (lit "/srv/app/.venv/bin/python"),
          Fails (FileNotFoundError (lit "/srv/app/.venv/bin/python"))) ])
  /\ VerifyOnHost.check_superclaude (host := ascii_machine)
       (lit "/srv/app/.venv/bin/python") (lit "Project .venv")
       (hstart (host := ascii_machine) 0)
     = (Throws (Error (Exc encode_error)),
        mkHState (host := ascii_machine) 1 []
          [ (VerifySuperclaude.import_check
               (lit "/srv/app/.venv/bin/python"),
             Fails (FileNotFoundError (lit "/srv/app/.venv/bin/python"))) ])
  /\ TestBridgeFunctionality.find_python (os := machine)
       [lit "./venv/bin/python"; venv_python] (start (os := machine) 0)
     = TestBridgeFunctionality.find_python (os := machine)
         [venv_python]
         (mkState (os := machine) 1 []
            [ (TestBridgeFunctionality.import_call (lit "./venv/bin/python"),
               Raises (FileNotFoundError (lit "./venv/bin/python"))) ]).
Proof.
  split; [|split].
  - apply (proj1 (@hosted_missing_program (hosted machine) machine)
                 (lit "/srv/app/.venv/bin/python") (lit "Project .venv")
                 (hstart (host := hosted machine) 0)
                 (lit "/srv/app/.venv/bin/python") 1 1);
      reflexivity.
  - apply (proj1 (proj2 (@hosted_missing_program ascii_machine machine))
                 (lit "/srv/app/.venv/bin/python") (lit "Project .venv")
                 (hstart (host := ascii_machine) 0)
                 (lit "/srv/app/.venv/bin/python") 1 encode_error 1);
      reflexivity.
  - apply (proj2 (proj2 (proj2 (proj2
                   (@hosted_missing_program (hosted machine) machine))))
                 (lit "./venv/bin/python") [venv_python]
                 (start (os := machine) 0)
                 (FileNotFoundError (lit "./venv/bin/python")) 1);
      reflexivity.
Defined.

Lemma hosted_verify_count_and_summary_witness :
  1 <= length (VerifySuperclaude.environments srv_app)
  /\ exists before,
      shown_since (hstart (host := hosted machine) 0)
        (snd (VerifyOnHost.verify (host := hosted machine)
                (VerifySuperclaude.environments srv_app)
                (hstart (host := hosted machine) 0)))
      = before ++ [VerifySuperclaude.summary 1].
Proof.
  apply (@hosted_verify_count_and_summary (hosted machine)
           (VerifySuperclaude.environments srv_app)
           (hstart (host := hosted machine) 0) 1).
  vm_compute. reflexivity.
Defined.

(** ** test-simple-fix.py on a host *)

Section SimpleFixOnHostFacts.
Import TestSimpleFix.
Context {host : Host}.



End SimpleFixOnHostFacts.

(** ** test-bridge-functionality.py on a host *)

Section BridgeOnHostFacts.
Import TestBridgeFunctionality.
Context {host : Host}.

(** Whenever a test comes to its end, it has announced itself once and
    made its one call. *)
Lemma hosted_run_test_trace test_name cmd (s : HState Line) s' :
  BridgeOnHost.run_test test_name cmd s = (Ends tt, s') ->
  exists lines o,
    hconsole s' = hconsole s ++ testing test_name :: lines
    /\ bridge_test_names lines = []
    /\ hcalls s' = hcalls s ++ [(test_call cmd, o)].
Proof.
  unfold BridgeOnHost.run_test. io_unfold.
  repeat io_case; io_ended; eexists _, _;
    (split; [reflexivity|]; split; reflexivity).
Qed.

Lemma bridge_test_names_app lines rest :
  bridge_test_names (lines ++ rest)
  = bridge_test_names lines ++ bridge_test_names rest.
Proof.
  induction lines as [|l lines IH]; simpl; auto.
  destruct (bridge_test_name l); simpl; rewrite IH; reflexivity.
Qed.

Lemma hosted_run_tests_trace tests (s : HState Line) s' :
  BridgeOnHost.run_tests tests s = (Ends tt, s') ->
  exists lines cs,
    hconsole s' = hconsole s ++ lines
    /\ hcalls s' = hcalls s ++ cs
    /\ bridge_test_names lines = map fst tests
    /\ map fst cs = map (fun t => test_call (snd t)) tests.
Proof.
  revert s. induction tests as [|[test_name cmd] rest IH]; intros s.
  - simpl. unfold ret_io. intros H. inversion H; subst.
    exists [], []. rewrite !app_nil_r. auto.
  - simpl. unfold bind_io at 1.
    destruct (BridgeOnHost.run_test test_name cmd s)
      as [[[]|x|] s1] eqn:Htest; try discriminate.
    apply hosted_run_test_trace in Htest as (lines1 & o & Hl1 & Hn1 & Hc1).
    intros H. apply IH in H as (lines & cs & Hl & Hc & Hn & Hcs).
    exists (testing test_name :: lines1 ++ lines), ((test_call cmd, o) :: cs).
    repeat split.
    + rewrite Hl, Hl1, <- app_assoc. reflexivity.
    + rewrite Hc, Hc1, <- app_assoc. reflexivity.
    + simpl. rewrite bridge_test_names_app, Hn1, Hn. reflexivity.
    + simpl. rewrite Hcs. reflexivity.
Qed.

(** Whenever the loop over the test commands comes to its end, it has run
    every command, in the order of the list and whatever the outcome of the
    ones before: each test was announced once, and one call was made per
    command, with the arguments of the command and the 5 seconds. *)
Theorem hosted_run_tests_runs_every_test tests (s : HState Line) s' :
  BridgeOnHost.run_tests tests s = (Ends tt, s') ->
  bridge_test_names (shown_since s s') = map fst tests
  /\ map fst (asked_since s s') = map (fun t => test_call (snd t)) tests.
Proof.
  intros H.
  apply hosted_run_tests_trace in H as (lines & cs & Hl & Hc & Hn & Hcs).
  rewrite (shown_since_app s s' lines Hl), (asked_since_app s s' cs Hc).
  auto.
Qed.

Lemma hosted_find_python_nonempty pys (s : HState Line) py s' :
  BridgeOnHost.find_python pys s = (Ends (Some py), s') ->
  nonempty py = true.
Proof.
  revert s. induction pys as [|py0 rest IH]; intros s.
  - discriminate.
  - simpl. destruct (nonempty py0 && negb (str_eqb py0 [])) eqn:Hne;
      [|apply IH].
    unfold bind_io at 1.
    destruct (BridgeOnHost.probe py0 s) as [[[|]|x|] s1];
      try discriminate; [|apply IH].
    unfold ret_io. intros H. inversion H; subst.
    apply andb_true_iff in Hne. tauto.
Qed.

(** Section 1 of the script on a host.  When the loop over the candidates
    selects nothing, no test command is run, and if the line that says so
    gets written the script leaves with [sys.exit(1)].  When the loop
    selects [py] and the section comes to its end, the first line after the
    selection names [py] and the calls after the selection are exactly
    those of the three test commands with [py] as their program. *)
Theorem hosted_command_execution_outcome :
  (forall pys (s : HState Line) s1,
      BridgeOnHost.find_python pys s = (Ends None, s1) ->
      hcalls (snd (BridgeOnHost.command_execution pys s)) = hcalls s1
      /\ forall w2,
          host_write (hworld s1) (render no_python) = (Finished tt, w2) ->
          BridgeOnHost.command_execution pys s
          = (Throws (Error (SystemExit 1)),
             mkHState w2 (hconsole s1 ++ [no_python]) (hcalls s1)))
  /\ (forall pys (s : HState Line) py s1 s2,
        BridgeOnHost.find_python pys s = (Ends (Some py), s1) ->
        BridgeOnHost.command_execution pys s = (Ends tt, s2) ->
        hd_error (shown_since s1 s2) = Some (using_python py)
        /\ map fst (asked_since s1 s2)
           = map (fun t => test_call (snd t)) (test_commands py)).
Proof.
  split.
  - intros pys s s1 Hfind.
    assert (Hce : BridgeOnHost.command_execution pys s
                  = bind_io (print_io render no_python)
                            (fun _ => throw_io (Error (SystemExit 1))) s1).
    { unfold BridgeOnHost.command_execution, bind_io at 1.
      rewrite Hfind. reflexivity. }
    rewrite Hce. io_unfold. split.
    + destruct (host_write (hworld s1) (render no_python))
        as [[[]|e| |] w2]; reflexivity.
    + intros w2 E. rewrite E. reflexivity.
  - intros pys s py s1 s2 Hfind.
    assert (Hne := hosted_find_python_nonempty _ _ Hfind).
    unfold BridgeOnHost.command_execution, bind_io at 1. rewrite Hfind.
    destruct py as [|ch p]; [discriminate|].
    unfold bind_io at 1, print_io at 1.
    destruct (host_write (hworld s1) (render (using_python (ch :: p))))
      as [[[]|e| |] w2]; try discriminate.
    intros H.
    apply hosted_run_tests_trace in H as (lines & cs & Hl & Hc & _ & Hcs).
    cbn [hconsole hcalls] in Hl, Hc. split.
    + erewrite shown_since_app
        by (rewrite Hl, <- app_assoc; reflexivity).
      reflexivity.
    + rewrite (asked_since_app s1 s2 cs Hc). exact Hcs.
Qed.
End BridgeOnHostFacts.

(** ** The check of the MCP configuration on a host *)

(** Splits on the shape of a loaded value and on the look-ups in it. *)
Ltac json_case :=
  match goal with
  | |- context [match ?j with
                | McpStatus.JDict _ => _
                | McpStatus.JList _ => _
                | McpStatus.JStr _ => _
                | McpStatus.JScalar _ => _
                end] => destruct j
  | |- context [McpStatus.lookup ?k ?items] =>
      destruct (McpStatus.lookup k items) eqn:?
  end.

Section McpOnHostFacts.
Import McpStatus.
Context {host : Host}.
Variable read_config : str -> FileState.
Variable render : Line -> str.

(** For one path: no process is started, whatever the file holds and
    whatever becomes of the writes. *)
Lemma hosted_check_config_calls config_path (s : HState Line) :
  hcalls (snd (McpOnHost.check_config read_config render config_path s))
  = hcalls s.
Proof.
  unfold McpOnHost.check_config, McpOnHost.path_exists, McpOnHost.load,
    McpOnHost.inspect, McpOnHost.py_in, McpOnHost.py_getitem.
  destruct (read_config config_path) as [| |config]; try reflexivity.
  io_unfold.
  repeat first [json_case | io_case]; reflexivity.
Qed.

(** For one path, where every write succeeds. *)
Lemma hosted_check_config_spec config_path (s : HState Line) :
  writes_succeed host ->
  exists w',
    McpOnHost.check_config read_config render config_path s
    = (Ends (configures (read_config config_path)),
       mkHState w'
         (hconsole s ++ lines_for config_path (read_config config_path))
         (hcalls s)).
Proof.
  intros Hw.
  assert (Hnil : forall w, w = hworld s ->
             exists w',
               (Ends false, s)
               = (Ends false, mkHState w' (hconsole s ++ []) (hcalls s))).
  { intros w _. exists (hworld s). rewrite app_nil_r.
    destruct s; reflexivity. }
  unfold McpOnHost.check_config, McpOnHost.path_exists, McpOnHost.load,
    McpOnHost.inspect, McpOnHost.py_in, McpOnHost.py_getitem,
    configures, lines_for, server_entry, announced, entry_passes,
    entry_python.
  destruct (read_config config_path) as [| |config];
    try (apply (Hnil _ eq_refl)).
  io_unfold.
  repeat first [json_case | io_case];
    try (apply (Hnil _ eq_refl));
    try solve [eexists; rewrite <- ?app_assoc; reflexivity];
    exfalso;
    repeat match goal with
      | E : host_write ?w ?t = _ |- _ =>
          let X := fresh in
          pose proof (Hw w t) as X; rewrite E in X; clear E;
          try discriminate X
      end.
Qed.

Lemma hosted_config_loop_calls paths (s : HState Line) :
  hcalls (snd (McpOnHost.config_loop read_config render paths s))
  = hcalls s.
Proof.
  revert s. induction paths as [|config_path rest IH]; intros s.
  - reflexivity.
  - simpl. unfold bind_io.
    assert (Hc := hosted_check_config_calls config_path s).
    destruct (McpOnHost.check_config read_config render config_path s)
      as [[[|]|x|] s1]; simpl in *; auto.
    rewrite IH. exact Hc.
Qed.

Lemma hosted_config_loop_spec paths (s : HState Line) :
  writes_succeed host ->
  exists w',
    McpOnHost.config_loop read_config render paths s
    = (Ends (existsb (fun p => configures (read_config p)) paths),
       mkHState w'
         (hconsole s
          ++ flat_map (fun p => lines_for p (read_config p))
                      (examined read_config paths))
         (hcalls s)).
Proof.
  intros Hw. revert s. induction paths as [|config_path rest IH]; intros s.
  - exists (hworld s). simpl. unfold ret_io. rewrite app_nil_r.
    destruct s; reflexivity.
  - destruct (hosted_check_config_spec config_path s Hw) as (w1 & Hcheck).
    simpl. unfold bind_io. rewrite Hcheck.
    destruct (configures (read_config config_path)); simpl.
    + exists w1. unfold ret_io. rewrite app_nil_r. reflexivity.
    + match goal with
      | |- context [McpOnHost.config_loop _ _ rest ?s1] =>
          destruct (IH s1) as (w2 & Hloop)
      end.
      exists w2. rewrite Hloop. simpl. rewrite <- app_assoc. reflexivity.
Qed.

(** The check of the MCP configuration on a host starts no process,
    whatever the files hold and whatever becomes of its writes.  Where every
    write succeeds it returns whether the file at one of the paths
    configures the server, having printed the lines of the paths it got to
    and then the warning exactly when it returns [False]. *)
Theorem hosted_mcp_status :
  (forall paths (s : HState Line),
      hcalls (snd (McpOnHost.mcp_status read_config render paths s))
      = hcalls s)
  /\ (writes_succeed host ->
      forall paths (s : HState Line),
        let found := existsb (fun p => configures (read_config p)) paths in
        exists w',
          McpOnHost.mcp_status read_config render paths s
          = (Ends found,
             mkHState w'
               (hconsole s
                ++ flat_map (fun p => lines_for p (read_config p))
                            (examined read_config paths)
                ++ (if found then [] else [not_configured]))
               (hcalls s))).
Proof.
  split.
  - intros paths s. unfold McpOnHost.mcp_status, bind_io at 1.
    assert (Hc := hosted_config_loop_calls paths s).
    destruct (McpOnHost.config_loop read_config render paths s)
      as [[[|]|x|] s1]; simpl in *; auto.
    io_unfold.
    destruct (host_write (hworld s1) (render not_configured))
      as [[[]|e| |] w2]; exact Hc.
  - intros Hw paths s found.
    destruct (hosted_config_loop_spec paths s Hw) as (w1 & Hloop).
    unfold McpOnHost.mcp_status, bind_io at 1. rewrite Hloop.
    fold found. destruct found; simpl.
    + exists w1. rewrite app_nil_r. reflexivity.
    + io_unfold. cbn [hworld hconsole hcalls].
      assert (Hn := Hw w1 (render not_configured)).
      destruct (host_write w1 (render not_configured)) as [o w2].
      simpl in Hn. subst o. exists w2. rewrite <- app_assoc. reflexivity.
Qed.
End McpOnHostFacts.

(** ** More of the scripts, on the two hosts *)


Lemma hosted_run_tests_runs_every_test_witness :
  bridge_test_names
    (shown_since (hstart (host := hosted machine) 0)
       (snd (BridgeOnHost.run_tests (host := hosted machine)
               (TestBridgeFunctionality.test_commands venv_python)
               (hstart (host := hosted machine) 0))))
  = map fst (TestBridgeFunctionality.test_commands venv_python)
  /\ map fst
       (asked_since (hstart (host := hosted machine) 0)
          (snd (BridgeOnHost.run_tests (host := hosted machine)
                  (TestBridgeFunctionality.test_commands venv_python)
                  (hstart (host := hosted machine) 0))))
     = map (fun t => TestBridgeFunctionality.test_call (snd t))
           (TestBridgeFunctionality.test_commands venv_python).
Proof.
  apply (@hosted_run_tests_runs_every_test (hosted machine)
           (TestBridgeFunctionality.test_commands venv_python)
           (hstart (host := hosted machine) 0)).
  vm_compute. reflexivity.
Defined.

Lemma hosted_command_execution_outcome_witness :
  BridgeOnHost.command_execution (host := hosted machine)
    (TestBridgeFunctionality.candidates None)
    (hstart (host := hosted machine) 0)
  = (Throws (Error (SystemExit 1)),
     mkHState (host := hosted machine) 2
       [TestBridgeFunctionality.no_python]
       (hcalls
          (snd (BridgeOnHost.find_python (host := hosted machine)
                  (TestBridgeFunctionality.candidates None)
                  (hstart (host := hosted machine) 0)))))
  /\ hd_error
       (shown_since
          (snd (BridgeOnHost.find_python (host := hosted machine)
                  (TestBridgeFunctionality.candidates (Some venv_python))
                  (hstart (host := hosted machine) 0)))
          (snd (BridgeOnHost.command_execution (host := hosted machine)
                  (TestBridgeFunctionality.candidates (Some venv_python))
                  (hstart (host := hosted machine) 0))))
     = Some (TestBridgeFunctionality.using_python venv_python).
Proof.
  split.
  - apply (proj2 (proj1 (@hosted_command_execution_outcome (hosted machine))
                        (TestBridgeFunctionality.candidates None)
                        (hstart (host := hosted machine) 0)
                        _ eq_refl)).
    reflexivity.
  - apply (proj1 (proj2 (@hosted_command_execution_outcome (hosted machine))
                        (TestBridgeFunctionality.candidates
                           (Some venv_python))
                        (hstart (host := hosted machine) 0)
                        venv_python _ _
                        ltac:(vm_compute; reflexivity)
                        ltac:(vm_compute; reflexivity))).
Defined.

Lemma hosted_mcp_status_witness :
  exists w',
    McpOnHost.mcp_status (host := hosted machine) machine_files
      machine_mcp_text
      (McpStatus.mcp_config_paths (Some (lit "/home/dev")))
      (hstart (host := hosted machine) 0)
    = (Ends true,
       mkHState (host := hosted machine) w'
         [ McpStatus.configured (lit "/home/dev/.claude.json");
           McpStatus.python_path_configured
             (McpStatus.JStr (lit "/srv/app/venv/bin/python")) ]
         []).
Proof.
  exact (proj2 (@hosted_mcp_status (hosted machine) machine_files
                  machine_mcp_text)
               (proj1 hosted_machine_is_kind)
               (McpStatus.mcp_config_paths (Some (lit "/home/dev")))
               (hstart (host := hosted machine) 0)).
Defined.

(** ** The two models of [check_superclaude] *)

(** On the host of an operating system, where every write succeeds and
    every child finishes, [check_superclaude] does what it was taken to do
    before: same verdict, same lines, same calls. *)
Lemma hosted_check_agrees {os : OS} python_path env_name
      (s : State VerifySuperclaude.Line) :
  VerifyOnHost.check_superclaude (host := hosted os)
    python_path env_name (on_host_state s)
  = (on_host_result
       (fst (VerifySuperclaude.check_superclaude python_path env_name s)),
     on_host_state
       (snd (VerifySuperclaude.check_superclaude python_path env_name s))).
Proof.
  unfold VerifyOnHost.check_superclaude, on_host_state. io_unfold.
  cbn [hworld hconsole hcalls host_run host_write hosted].
  destruct (subprocess_run (world s)
              (VerifySuperclaude.import_check python_path))
    as [[p|e] w1] eqn:E.
  - destruct (VerifySuperclaude.import_ok p) eqn:Hok.
    + destruct (subprocess_run w1
                  (VerifySuperclaude.details_call python_path))
        as [[d|e] w2] eqn:E2.
      * rewrite (check_details_return _ _ _ E Hok E2).
        unfold VerifySuperclaude.import_ok in Hok. rewrite Hok.
        cbn [hworld hconsole hcalls]. rewrite E2.
        unfold VerifySuperclaude.success_lines.
        destruct (returncode d =? 0)%Z; simpl;
          rewrite !map_app, <- ?app_assoc; reflexivity.
      * rewrite (check_details_raise _ _ _ E Hok E2).
        unfold VerifySuperclaude.import_ok in Hok. rewrite Hok.
        cbn [hworld hconsole hcalls]. rewrite E2.
        destruct e; simpl; rewrite !map_app, <- ?app_assoc; reflexivity.
    + rewrite (check_import_not_ok _ _ _ E Hok).
      unfold VerifySuperclaude.import_ok in Hok. rewrite Hok.
      unfold VerifySuperclaude.failure_lines.
      destruct (nonempty (stderr p)); simpl;
        rewrite !map_app, <- ?app_assoc; reflexivity.
  - rewrite (check_first_call_raises _ _ _ E).
    destruct e; simpl; rewrite !map_app; reflexivity.
Qed.
